(** * A shallow embedding of [transformers/trainer_tf.py]

    The TensorFlow trainer drives a training / evaluation loop on top of an
    external tensor runtime.  The embedding keeps the control structure of
    the Python class [TFTrainer]: every method is a function of the same
    name that threads the mutable parts of [self] explicitly and returns a
    [result] where the Python code can raise.

    Conventions.
    - Python [int]s and the optimizer's iteration counter are [Z].
    - Floating-point tensors are idealised: one gradient component, one loss
      value or one metric is a rational number of type [Q], compared with
      [==].  Rounding is outside the scope of the development.
    - A [dict] with string keys is a [gmap string _].
    - What the runtime supplies (the model's forward pass, automatic
      differentiation, the cross-replica reduction, the shuffle order) is a
      [Variable] of the enclosing [Section]. *)

From Stdlib Require Import ZArith QArith Qminmax String List Lia Bool.
From stdpp Require Import base option list gmap strings.

Local Open Scope Z_scope.

(** ** Python values and exceptions *)

Module Py.

Inductive exn : Type :=
| ValueError (msg : string)
| ZeroDivisionError
| UnboundLocalError (name : string)
| AttributeError
| IndexError
| KeyError (key : string)
| InvalidArgumentError.

(** The outcome of a call: it returns, it raises, or it never returns. *)
Inductive result (A : Type) : Type :=
| Ok (a : A)
| Raise (e : exn)
| Diverge.
Arguments Ok {A} a.
Arguments Raise {A} e.
Arguments Diverge {A}.

Definition bind {A B} (r : result A) (k : A -> result B) : result B :=
  match r with
  | Ok a => k a
  | Raise e => Raise e
  | Diverge => Diverge
  end.

(** [a % b] on Python [int]s: the sign follows the divisor, a zero divisor
    raises. *)
Definition int_mod (a b : Z) : result Z :=
  if b =? 0 then Raise ZeroDivisionError else Ok (a mod b).

(** [a / b] on Python [int]s is true division. *)
Definition int_truediv (a b : Z) : result Q :=
  if b =? 0 then Raise ZeroDivisionError else Ok (inject_Z a / inject_Z b)%Q.

(** [1.0 / n] with [n] an [int]. *)
Definition float_div_int (x : Q) (n : Z) : result Q :=
  if n =? 0 then Raise ZeroDivisionError else Ok (x / inject_Z n)%Q.

(** NumPy integer scalars ([iterations.numpy()]): [//] and [%] by zero
    give [0] with a warning instead of raising. *)
Definition np_floordiv (a b : Z) : Z := if b =? 0 then 0 else a / b.
Definition np_mod (a b : Z) : Z := if b =? 0 then 0 else a mod b.

(** [math.ceil(a / b)] for integers [a] and [b]. *)
Definition ceil_div (a b : Z) : result Z :=
  if b =? 0 then Raise ZeroDivisionError else Ok (- ((- a) / b)).

(** [needle in haystack] for strings. *)
Fixpoint contains (needle haystack : string) : bool :=
  String.prefix needle haystack ||
  match haystack with
  | EmptyString => false
  | String _ rest => contains needle rest
  end.

End Py.

Notation "'try!' x <- c1 'in' c2" := (Py.bind c1 (fun x => c2))
  (at level 10, x name, c1 at level 100, c2 at level 200, only parsing).
Notation "'try!' ' pat <- c1 'in' c2" :=
  (Py.bind c1 (fun x => match x with pat => c2 end))
  (at level 10, pat pattern, c1 at level 100, c2 at level 200, only parsing).

(** ** Tensors of the runtime, idealised over [Q] *)

Module TF.

(** [tf.clip_by_value(t, lo, hi)] is [maximum(minimum(t, hi), lo)],
    componentwise. *)
Definition clip_by_value (x lo hi : Q) : Q := Qmax (Qmin x hi) lo.

(** Elementwise sum of two gradient lists; a missing component counts as
    the zero tensor. *)
Fixpoint vadd (a b : list Q) : list Q :=
  match a, b with
  | [], _ => b
  | _, [] => a
  | x :: a', y :: b' => (x + y)%Q :: vadd a' b'
  end.

(** [numpy.ndarray] of predictions or labels: its rows along axis 0. *)
Definition ndarray : Type := list (list Q).

(** What a batch of the distributed dataset, or an output of the model,
    can be: a tensor, a tuple, a mapping of named tensors, or one value
    per replica. *)
#[local] Set Warnings "-register-all".
Inductive value : Type :=
| Tensor (rows : ndarray)
| Tuple (items : list value)
| Dict (items : list (string * value))
| PerReplica (values : list value).

(** [v.numpy()] exists on tensors only. *)
Definition numpy (v : value) : Py.result ndarray :=
  match v with
  | Tensor rows => Py.Ok rows
  | _ => Py.Raise Py.AttributeError
  end.

(** [v.values] exists on per-replica containers only. *)
Definition values (v : value) : Py.result (list value) :=
  match v with
  | PerReplica vs => Py.Ok vs
  | _ => Py.Raise Py.AttributeError
  end.

(** [tf.reduce_mean] of a scalar tensor is that scalar. *)
Definition reduce_mean (t : Q) : Q := t.

(** A [tf.data.Dataset]: a finite sequence of elements, or the endless
    repetition [repeat(-1)] of one. *)
Inductive Dataset (A : Type) : Type :=
| Finite (elems : list A)
| Repeated (elems : list A).
Arguments Finite {A} elems.
Arguments Repeated {A} elems.

Definition repeat_forever {A} (d : Dataset A) : Dataset A :=
  match d with
  | Finite l => Repeated l
  | Repeated l => Repeated l
  end.

(** One full pass over a dataset, which an endless dataset never
    completes. *)
Definition full_pass {A} (d : Dataset A) : Py.result (list A) :=
  match d with
  | Finite l => Py.Ok l
  | Repeated [] => Py.Ok []
  | Repeated (_ :: _) => Py.Diverge
  end.

(** [batch(n, drop_remainder)] on a finite sequence. *)
Fixpoint batch_fuel {A} (fuel : nat) (n : nat) (drop_remainder : bool)
    (l : list A) : list (list A) :=
  match fuel with
  | O => []
  | S fuel' =>
      match l with
      | [] => []
      | _ =>
          let chunk := firstn n l in
          if (length chunk <? n)%nat
          then (if drop_remainder then [] else [chunk])
          else chunk :: batch_fuel fuel' n drop_remainder (skipn n l)
      end
  end.

(** The batch size must be positive. *)
Definition batch {A} (n : Z) (drop_remainder : bool) (l : list A)
  : Py.result (list (list A)) :=
  if n <=? 0 then Py.Raise Py.InvalidArgumentError
  else Py.Ok (batch_fuel (length l) (Z.to_nat n) drop_remainder l).

End TF.

(** ** The gradient accumulator *)

Module GradientAccumulator.

(** Modelled from the spec: the class [GradientAccumulator] of
    [optimization_tf] is not part of the sources at hand.  The spec gives it
    a step counter and one running sum per trainable variable:
    [step] is the number of micro-batches folded in since the last reset,
    [gradients] the elementwise sum over those micro-batches across all
    replicas, and [reset] zeroes both. *)
Record t : Type := { step : Z; gradients : list Q }.

Definition init : t := {| step := 0; gradients := [] |}.

(** Modelled from the spec: the call made by replica [replica_id] folds
    that replica's gradients into the sum; the counter advances once per
    micro-batch, with the first replica. *)
Definition call (replica_id : nat) (grads : list Q) (acc : t) : t :=
  {| step := if Nat.eqb replica_id 0 then step acc + 1 else step acc;
     gradients := TF.vadd (gradients acc) grads |}.

(** Modelled from the spec: reset zeroes the counter and every sum. *)
Definition reset (acc : t) : t :=
  {| step := 0; gradients := map (fun _ => 0%Q) (gradients acc) |}.

End GradientAccumulator.

(** ** The optimizer, the model and the configuration *)

(** The optimizer is external; what the trainer relies on is its iteration
    counter, advanced by every [apply_gradients], and the gradients it was
    handed, kept here in call order. *)
Record Optimizer : Type := {
  iterations : Z;
  applied : list (list (Q * string))
}.

Definition apply_gradients (grads_and_vars : list (Q * string)) (o : Optimizer)
  : Optimizer :=
  {| iterations := iterations o + 1;
     applied := applied o ++ [grads_and_vars] |}.

Definition LearningRateSchedule : Type := Z -> Q.

(** The model contract: a call returns at least [(loss, logits)]; [losses]
    are the auxiliary regularisation terms; [is_pretrained_model] is
    [isinstance(model, TFPreTrainedModel)]. *)
Record TFPreTrainedModel : Type := {
  call : TF.value -> list (string * TF.value) -> bool -> list Q * TF.value;
  losses : list Q;
  trainable_variables : list string;
  is_pretrained_model : bool
}.

(** The distribution strategy contract.  [reduce] is the mean reduction
    [reduce(ReduceOp.MEAN, values, axis)] of the per-replica losses, a
    scalar. *)
Record Strategy : Type := {
  num_replicas_in_sync : Z;
  reduce : list (list Q) -> option Z -> Py.result Q;
  experimental_distribute_dataset :
    list (TF.value * TF.value) -> TF.value * TF.value
}.

Record TFTrainingArguments : Type := {
  strategy : Strategy;
  max_steps : Z;
  num_train_epochs : Z;
  train_batch_size : Z;
  eval_batch_size : Z;
  dataloader_drop_last : bool;
  gradient_accumulation_steps : Z;
  max_grad_norm : Q;
  learning_rate : Q;
  warmup_steps : Z;
  adam_epsilon : Q;
  weight_decay : Q;
  debug : bool;
  evaluate_during_training : bool;
  eval_steps : Z;
  logging_steps : Z;
  save_steps : Z;
  output_dir : string;
  logging_dir : string
}.

(** Modelled from the spec: the property [n_gpu] of [TFTrainingArguments] is
    not part of the sources at hand; the spec reads the factor it scales by
    as the replica count of the distribution strategy. *)
Definition n_gpu (args : TFTrainingArguments) : Z :=
  num_replicas_in_sync (strategy args).

Record EvalPrediction : Type := {
  ep_predictions : TF.ndarray;
  ep_label_ids : TF.ndarray
}.

Record PredictionOutput : Type := {
  predictions : option TF.ndarray;
  label_ids : option TF.ndarray;
  metrics : gmap string Q
}.

(** What the trainer writes to the outside, in order. *)
Inductive event : Type :=
| LoggerInfo (msg : string)
| TBScalars (logs : gmap string Q) (step : Z)
| WandbLog (logs : gmap string Q) (step : Z)
| LoggerInfoMap (output : gmap string Q)
| TraceExport (step : Z)
| CheckpointSave (step : Z)
| SavePretrained (dir : string).

(** The attributes of a [TFTrainer] instance.  [latest_checkpoint] is the
    optimizer iteration counter held by the newest checkpoint on disk, if
    there is one; [has_wandb] is the module flag [_has_wandb]. *)
Record TFTrainer : Type := {
  model : TFPreTrainedModel;
  args : TFTrainingArguments;
  train_dataset : option (TF.Dataset (TF.value * TF.value));
  eval_dataset : option (TF.Dataset (TF.value * TF.value));
  compute_metrics : option (EvalPrediction -> gmap string Q);
  prediction_loss_only : bool;
  optimizers : option (Optimizer * LearningRateSchedule);
  gradient_accumulator : GradientAccumulator.t;
  global_step : Z;
  epoch_logging : Q;
  num_train_examples : Z;
  train_steps : Z;
  latest_checkpoint : option Z;
  has_wandb : bool;
  events : list event
}.

Definition set_datasets (self : TFTrainer)
    (ds : option (TF.Dataset (TF.value * TF.value))) (n steps : Z) : TFTrainer :=
  {| model := model self; args := args self; train_dataset := ds;
     eval_dataset := eval_dataset self;
     compute_metrics := compute_metrics self;
     prediction_loss_only := prediction_loss_only self;
     optimizers := optimizers self;
     gradient_accumulator := gradient_accumulator self;
     global_step := global_step self; epoch_logging := epoch_logging self;
     num_train_examples := n; train_steps := steps;
     latest_checkpoint := latest_checkpoint self;
     has_wandb := has_wandb self; events := events self |}.

Definition set_gradient_accumulator (self : TFTrainer)
    (acc : GradientAccumulator.t) : TFTrainer :=
  {| model := model self; args := args self;
     train_dataset := train_dataset self; eval_dataset := eval_dataset self;
     compute_metrics := compute_metrics self;
     prediction_loss_only := prediction_loss_only self;
     optimizers := optimizers self;
     gradient_accumulator := acc;
     global_step := global_step self; epoch_logging := epoch_logging self;
     num_train_examples := num_train_examples self;
     train_steps := train_steps self;
     latest_checkpoint := latest_checkpoint self;
     has_wandb := has_wandb self; events := events self |}.

Definition set_progress (self : TFTrainer) (gs : Z) (ep : Q) : TFTrainer :=
  {| model := model self; args := args self;
     train_dataset := train_dataset self; eval_dataset := eval_dataset self;
     compute_metrics := compute_metrics self;
     prediction_loss_only := prediction_loss_only self;
     optimizers := optimizers self;
     gradient_accumulator := gradient_accumulator self;
     global_step := gs; epoch_logging := ep;
     num_train_examples := num_train_examples self;
     train_steps := train_steps self;
     latest_checkpoint := latest_checkpoint self;
     has_wandb := has_wandb self; events := events self |}.

Definition emit (self : TFTrainer) (evs : list event) : TFTrainer :=
  {| model := model self; args := args self;
     train_dataset := train_dataset self; eval_dataset := eval_dataset self;
     compute_metrics := compute_metrics self;
     prediction_loss_only := prediction_loss_only self;
     optimizers := optimizers self;
     gradient_accumulator := gradient_accumulator self;
     global_step := global_step self; epoch_logging := epoch_logging self;
     num_train_examples := num_train_examples self;
     train_steps := train_steps self;
     latest_checkpoint := latest_checkpoint self;
     has_wandb := has_wandb self; events := events self ++ evs |}.

(** ** Running a function on every replica *)

Module Replicas.

(** The shards of a distributed value, in replica order; a value that is
    not per-replica is the single shard of a single replica. *)
Definition shards (v : TF.value) : list TF.value :=
  match v with
  | TF.PerReplica vs => vs
  | _ => [v]
  end.

(** The results of the replicas put back together: one replica gives its
    result as it is, several give a per-replica container. *)
Definition regroup (vs : list TF.value) : TF.value :=
  match vs with
  | [v] => v
  | _ => TF.PerReplica vs
  end.

(** [for x in xs: acc.append(f(x))] with the first exception ending it. *)
Fixpoint traverse {A B} (f : A -> Py.result B) (xs : list A)
  : Py.result (list B) :=
  match xs with
  | [] => Py.Ok []
  | x :: xs' =>
      try! y <- f x in
      try! ys <- traverse f xs' in
      Py.Ok (y :: ys)
  end.

(** The same with a state and the replica index threaded through. *)
Fixpoint traverse_state {A B St} (f : nat -> A -> St -> Py.result (B * St))
    (replica_id : nat) (xs : list A) (s : St) : Py.result (list B * St) :=
  match xs with
  | [] => Py.Ok ([], s)
  | x :: xs' =>
      try! ' (y, s1) <- f replica_id x s in
      try! ' (ys, s2) <- traverse_state f (S replica_id) xs' s1 in
      Py.Ok (y :: ys, s2)
  end.

End Replicas.

(** ** The methods of [TFTrainer] *)

(** An unfinished run of the generator [_training_steps]: it has ended with
    the data, or it hands a loss to its consumer and can be resumed, or it
    has raised, or it never comes back.  Every node carries the accumulator and the optimizer as the
    generator leaves them at that point. *)
Inductive training_steps : Type :=
| StopIteration (acc : GradientAccumulator.t) (opt : Optimizer)
| Yield (loss : Q) (acc : GradientAccumulator.t) (opt : Optimizer)
    (rest : training_steps)
| Raised (e : Py.exn)
| Hung.

Section Methods.

(** The order in which [shuffle(buffer_size)] delivers a sequence. *)
Variable shuffle :
  Z -> list (TF.value * TF.value) -> list (TF.value * TF.value).

(** [tf.gradients] of the loss of one shard with respect to the trainable
    variables; [None] for a variable the loss does not depend on. *)
Variable tf_gradients :
  TF.value -> TF.value -> list string -> list (option Q).

(** [create_optimizer] of [optimization_tf], with its learning-rate
    schedule. *)
Variable create_optimizer :
  Q -> Z -> Z -> Q -> Q -> Optimizer * LearningRateSchedule.

(** The batched training sequence is built from [self.train_dataset] as
    it is on entry; [repeat(-1)] is applied afterwards, to the attribute
    only. *)
Definition get_train_tfdataset (self : TFTrainer)
  : Py.result (list (TF.value * TF.value) * TFTrainer) :=
  match train_dataset self with
  | None =>
      Py.Raise (Py.ValueError "Trainer: training requires a train_dataset.")
  | Some dataset =>
      try! elems <- TF.full_pass dataset in
      let num_train_examples := Z.of_nat (length elems) in
      try! train_steps <-
        (if max_steps (args self) >? 0
         then Py.Ok (max_steps (args self))
         else Py.ceil_div num_train_examples (train_batch_size (args self))) in
      try! batches <-
        TF.batch (train_batch_size (args self))
                 (dataloader_drop_last (args self))
                 (shuffle num_train_examples elems) in
      let ds := batches in
      let dataset' :=
        if max_steps (args self) >? 0 then TF.repeat_forever dataset
        else dataset in
      Py.Ok (map (experimental_distribute_dataset (strategy (args self))) ds,
             set_datasets self (Some dataset') num_train_examples train_steps)
  end.

Definition get_eval_tfdataset (self : TFTrainer)
    (eval_dataset_arg : option (TF.Dataset (TF.value * TF.value)))
  : Py.result (list (TF.value * TF.value)) :=
  match eval_dataset_arg, eval_dataset self with
  | None, None =>
      Py.Raise (Py.ValueError "Trainer: evaluation requires an eval_dataset.")
  | Some dataset, _ | None, Some dataset =>
      try! elems <- TF.full_pass dataset in
      try! ds <-
        TF.batch (eval_batch_size (args self))
                 (dataloader_drop_last (args self)) elems in
      Py.Ok (map (experimental_distribute_dataset (strategy (args self))) ds)
  end.

Definition get_test_tfdataset (self : TFTrainer)
    (test_dataset : TF.Dataset (TF.value * TF.value))
  : Py.result (list (TF.value * TF.value)) :=
  try! elems <- TF.full_pass test_dataset in
  try! ds <-
    TF.batch (eval_batch_size (args self))
             (dataloader_drop_last (args self)) elems in
  Py.Ok (map (experimental_distribute_dataset (strategy (args self))) ds).

Definition get_optimizers (self : TFTrainer)
  : Optimizer * LearningRateSchedule :=
  match optimizers self with
  | Some opts => opts
  | None =>
      create_optimizer (learning_rate (args self)) (train_steps self)
        (warmup_steps (args self)) (adam_epsilon (args self))
        (weight_decay (args self))
  end.

(** [sum(self.model.losses)] adds from the left, starting at [0]. *)
Definition py_sum (l : list Q) : Q := fold_left Qplus l 0%Q.

Definition _run_model (self : TFTrainer) (features labels : TF.value)
    (training : bool) : Py.result (list Q * TF.value) :=
  let ' (loss, logits) :=
    match labels with
    | TF.Dict items => call (model self) features items training
    | _ => call (model self) features [("labels"%string, labels)] training
    end in
  try! scale <- Py.float_div_int 1 (n_gpu (args self)) in
  let loss := map (fun x => x + py_sum (losses (model self)) * scale)%Q loss in
  Py.Ok (loss, logits).

(** [try: reduce(MEAN, v, axis=0) except ValueError: reduce(MEAN, v, None)] *)
Definition reduce_mean_with_fallback (self : TFTrainer)
    (per_replica_loss : list (list Q)) : Py.result Q :=
  match reduce (strategy (args self)) per_replica_loss (Some 0) with
  | Py.Raise (Py.ValueError _) =>
      reduce (strategy (args self)) per_replica_loss None
  | r => r
  end.

Definition _evaluate_steps (self : TFTrainer)
    (per_replica_features per_replica_labels : TF.value)
  : Py.result (Q * TF.value) :=
  try! outs <-
    Replicas.traverse
      (fun shard : TF.value * TF.value =>
         _run_model self (fst shard) (snd shard) false)
      (zip (Replicas.shards per_replica_features)
           (Replicas.shards per_replica_labels)) in
  let per_replica_loss := map fst outs in
  let per_replica_logits := Replicas.regroup (map snd outs) in
  try! reduced_loss <- reduce_mean_with_fallback self per_replica_loss in
  Py.Ok (reduced_loss, per_replica_logits).

(** [x = x[0]] when [x] is a tuple. *)
Definition first_if_tuple (v : TF.value) : Py.result TF.value :=
  match v with
  | TF.Tuple (x :: _) => Py.Ok x
  | TF.Tuple [] => Py.Raise Py.IndexError
  | _ => Py.Ok v
  end.

(** [acc = a if acc is None else np.append(acc, a, axis=0)] *)
Definition append_axis0 (acc : option TF.ndarray) (a : TF.ndarray)
  : option TF.ndarray :=
  match acc with
  | None => Some a
  | Some p => Some (p ++ a)
  end.

(** [for val in vs: acc = append(acc, val.numpy())] *)
Fixpoint append_all (vs : list TF.value) (acc : option TF.ndarray)
  : Py.result (option TF.ndarray) :=
  match vs with
  | [] => Py.Ok acc
  | val :: vs' =>
      try! a <- TF.numpy val in
      append_all vs' (append_axis0 acc a)
  end.

(** The local variables of [_prediction_loop] that outlive one turn of
    its loop; [pl_loss] is unbound until the first batch. *)
Record prediction_locals : Type := {
  pl_loss : option Q;
  pl_preds : option TF.ndarray;
  pl_label_ids : option TF.ndarray
}.

(** One turn of [for features, labels in dataset]. *)
Definition prediction_step (self : TFTrainer) (prediction_loss_only : bool)
    (loc : prediction_locals) (batch : TF.value * TF.value)
  : Py.result prediction_locals :=
  let ' (features, labels) := batch in
  try! ' (loss, logits) <- _evaluate_steps self features labels in
  let loss := TF.reduce_mean loss in
  if negb prediction_loss_only then
    try! logits <- first_if_tuple logits in
    try! labels <- first_if_tuple labels in
    if n_gpu (args self) >? 1 then
      try! logit_values <- TF.values logits in
      try! preds <- append_all logit_values (pl_preds loc) in
      try! label_values <- TF.values labels in
      try! label_ids <- append_all label_values (pl_label_ids loc) in
      Py.Ok {| pl_loss := Some loss; pl_preds := preds;
               pl_label_ids := label_ids |}
    else
      try! logits_np <- TF.numpy logits in
      let preds := append_axis0 (pl_preds loc) logits_np in
      try! labels_np <- TF.numpy labels in
      let label_ids := append_axis0 (pl_label_ids loc) labels_np in
      Py.Ok {| pl_loss := Some loss; pl_preds := preds;
               pl_label_ids := label_ids |}
  else
    Py.Ok {| pl_loss := Some loss; pl_preds := pl_preds loc;
             pl_label_ids := pl_label_ids loc |}.

Fixpoint prediction_batches (self : TFTrainer) (prediction_loss_only : bool)
    (dataset : list (TF.value * TF.value)) (loc : prediction_locals)
  : Py.result prediction_locals :=
  match dataset with
  | [] => Py.Ok loc
  | batch :: dataset' =>
      try! loc' <- prediction_step self prediction_loss_only loc batch in
      prediction_batches self prediction_loss_only dataset' loc'
  end.

(** [if not key.startswith("eval_"): metrics["eval_" + key] = metrics.pop(key)] *)
Definition rename_key (metrics : gmap string Q) (key : string)
  : Py.result (gmap string Q) :=
  if String.prefix "eval_" key then Py.Ok metrics
  else
    match metrics !! key with
    | Some v => Py.Ok (<[("eval_" ++ key)%string := v]> (delete key metrics))
    | None => Py.Raise (Py.KeyError key)
    end.

Fixpoint rename_keys (keys : list string) (metrics : gmap string Q)
  : Py.result (gmap string Q) :=
  match keys with
  | [] => Py.Ok metrics
  | key :: keys' =>
      try! metrics' <- rename_key metrics key in
      rename_keys keys' metrics'
  end.

(** [list(metrics.keys())] *)
Definition keys_of (metrics : gmap string Q) : list string :=
  (map_to_list metrics).*1.

(** Line 193: the argument, or the trainer's own flag when it is [None]. *)
Definition loss_only_mode (self : TFTrainer)
    (prediction_loss_only_arg : option bool) : bool :=
  match prediction_loss_only_arg with
  | Some b => b
  | None => prediction_loss_only self
  end.

(** Lines 240-243: the mapping of the metrics callback, or [{}]. *)
Definition callback_metrics (self : TFTrainer)
    (preds label_ids : option TF.ndarray) : gmap string Q :=
  match compute_metrics self, preds, label_ids with
  | Some f, Some preds, Some label_ids =>
      f {| ep_predictions := preds; ep_label_ids := label_ids |}
  | _, _, _ => ∅
  end.

Definition no_locals : prediction_locals :=
  {| pl_loss := None; pl_preds := None; pl_label_ids := None |}.

Definition _prediction_loop (self : TFTrainer)
    (dataset : list (TF.value * TF.value))
    (prediction_loss_only_arg : option bool) : Py.result PredictionOutput :=
  let prediction_loss_only := loss_only_mode self prediction_loss_only_arg in
  try! loc <-
    prediction_batches self prediction_loss_only dataset no_locals in
  let metrics : gmap string Q :=
    callback_metrics self (pl_preds loc) (pl_label_ids loc) in
  match pl_loss loc with
  | None => Py.Raise (Py.UnboundLocalError "loss")
  | Some loss =>
      let metrics := <["eval_loss"%string := loss]> metrics in
      try! metrics <- rename_keys (keys_of metrics) metrics in
      Py.Ok {| predictions := pl_preds loc; label_ids := pl_label_ids loc;
               metrics := metrics |}
  end.

Definition _log (self : TFTrainer) (logs : gmap string Q) : TFTrainer :=
  emit self
    ([TBScalars logs (global_step self)]
     ++ (if has_wandb self then [WandbLog logs (global_step self)] else [])
     ++ [LoggerInfoMap (<["step"%string := inject_Z (global_step self)]> logs)]).

(** [evaluate] does not hand its [prediction_loss_only] argument on. *)
Definition evaluate (self : TFTrainer)
    (eval_dataset_arg : option (TF.Dataset (TF.value * TF.value)))
    (prediction_loss_only_arg : option bool)
  : Py.result (gmap string Q * TFTrainer) :=
  try! eval_ds <- get_eval_tfdataset self eval_dataset_arg in
  try! output <- _prediction_loop self eval_ds None in
  let logs := <["epoch"%string := epoch_logging self]> (metrics output) in
  Py.Ok (metrics output, _log self logs).

Definition predict (self : TFTrainer)
    (test_dataset : TF.Dataset (TF.value * TF.value))
  : Py.result PredictionOutput :=
  try! test_ds <- get_test_tfdataset self test_dataset in
  _prediction_loop self test_ds None.

(** [[g if g is not None else tf.zeros_like(v) for g, v in zip(gs, vs)]] *)
Definition densify (gradients : list (option Q)) (variables : list string)
  : list Q :=
  map (fun gv : option Q * string => default 0%Q (fst gv))
      (zip gradients variables).

(** [_forward] as run by replica [replica_id]. *)
Definition _forward (self : TFTrainer) (replica_id : nat)
    (shard : TF.value * TF.value) (acc : GradientAccumulator.t)
  : Py.result (list Q * GradientAccumulator.t) :=
  let ' (features, labels) := shard in
  try! ' (per_example_loss, _) <- _run_model self features labels true in
  let gradients :=
    tf_gradients features labels (trainable_variables (model self)) in
  let gradients := densify gradients (trainable_variables (model self)) in
  Py.Ok (per_example_loss, GradientAccumulator.call replica_id gradients acc).

Definition _accumulate_gradients (self : TFTrainer)
    (per_replica_features per_replica_labels : TF.value)
    (acc : GradientAccumulator.t)
  : Py.result (Q * GradientAccumulator.t) :=
  try! ' (per_replica_loss, acc') <-
    Replicas.traverse_state (_forward self) 0%nat
      (zip (Replicas.shards per_replica_features)
           (Replicas.shards per_replica_labels)) acc in
  try! reduced_loss <- reduce_mean_with_fallback self per_replica_loss in
  Py.Ok (reduced_loss, acc').

(** The gradients [_step] hands to the optimizer: the accumulated sums
    divided by [step * num_replicas_in_sync], then clipped.  Over [Q] a
    division by a zero scale gives 0 and nothing is rounded; the tensors of
    the code give inf or NaN there and round every sum and quotient. *)
Definition scaled_gradients (self : TFTrainer) (acc : GradientAccumulator.t)
  : list Q :=
  let gradient_scale :=
    GradientAccumulator.step acc
    * num_replicas_in_sync (strategy (args self)) in
  map (fun gradient => gradient / inject_Z gradient_scale)%Q
      (GradientAccumulator.gradients acc).

Definition clipped_gradients (self : TFTrainer) (gradients : list Q)
  : list Q :=
  map (fun grad =>
         TF.clip_by_value grad (- max_grad_norm (args self))%Q
                          (max_grad_norm (args self)))
      gradients.

Definition _step (self : TFTrainer) (optimizer : Optimizer)
    (acc : GradientAccumulator.t) : Optimizer * GradientAccumulator.t :=
  let gradients := scaled_gradients self acc in
  let gradients := clipped_gradients self gradients in
  (apply_gradients (zip gradients (trainable_variables (model self))) optimizer,
   GradientAccumulator.reset acc).

(** The replicated call of [_step] is one optimizer update on the
    accumulated state. *)
Definition _apply_gradients (self : TFTrainer) (optimizer : Optimizer)
    (acc : GradientAccumulator.t) : Optimizer * GradientAccumulator.t :=
  _step self optimizer acc.

(** [_training_steps], with [_accumulate_next_gradients] inlined: [i] is
    the index [enumerate] gives the next micro-batch, [ds] what the
    iterator has left. *)
Fixpoint _training_steps_from (self : TFTrainer) (i : Z)
    (ds : list (TF.value * TF.value))
    (acc : GradientAccumulator.t) (optimizer : Optimizer) : training_steps :=
  match ds with
  | [] => StopIteration acc optimizer
  | (per_replica_features, per_replica_labels) :: ds' =>
      match _accumulate_gradients self per_replica_features
              per_replica_labels acc with
      | Py.Raise e => Raised e
      | Py.Diverge => Hung
      | Py.Ok (loss, acc1) =>
          match Py.int_mod i (gradient_accumulation_steps (args self)) with
          | Py.Ok r =>
              if r =? 0 then
                let ' (optimizer2, acc2) :=
                  _apply_gradients self optimizer acc1 in
                Yield loss acc2 optimizer2
                  (_training_steps_from self (i + 1) ds' acc2 optimizer2)
              else _training_steps_from self (i + 1) ds' acc1 optimizer
          | Py.Raise e => Raised e
          | Py.Diverge => Hung
          end
      end
  end.

(** The micro-batches [ds] folded in one after the other, with no apply
    in between: what the generator does from one apply to the next. *)
Fixpoint accumulate_micro_batches (self : TFTrainer)
    (ds : list (TF.value * TF.value)) (acc : GradientAccumulator.t)
  : Py.result GradientAccumulator.t :=
  match ds with
  | [] => Py.Ok acc
  | (per_replica_features, per_replica_labels) :: ds' =>
      try! ' (_, acc') <-
        _accumulate_gradients self per_replica_features per_replica_labels
          acc in
      accumulate_micro_batches self ds' acc'
  end.

Definition _training_steps (self : TFTrainer)
    (ds : list (TF.value * TF.value)) (optimizer : Optimizer)
  : training_steps :=
  _training_steps_from self 0 ds (gradient_accumulator self) optimizer.

(** Lines 305-309 of [train]: the epoch at which training starts, from the
    restored iteration counter. *)
Definition start_epoch (iterations train_steps : Z) : Z :=
  if iterations >? 0 then Py.np_floordiv iterations train_steps + 1 else 1.

(** Line 313 of [train]. *)
Definition total_epochs (args : TFTrainingArguments) : Z :=
  if max_steps args >? 0 then 1 else num_train_epochs args.

(** [range(a, b)] *)
Definition py_range (a b : Z) : list Z :=
  map (fun k => a + Z.of_nat k) (seq 0 (Z.to_nat (b - a))).

(** The body of the inner [for] of [train] for one yielded loss; the
    boolean is [true] when it ends in [break]. *)
Definition training_step_body (self : TFTrainer)
    (lr_scheduler : LearningRateSchedule) (optimizer : Optimizer)
    (epoch_iter step : Z) (training_loss : Q)
  : Py.result (TFTrainer * bool) :=
  let gs := iterations optimizer in
  try! fraction <- Py.int_truediv (step + 1) (train_steps self) in
  let self := set_progress self gs (inject_Z (epoch_iter - 1) + fraction)%Q in
  let self :=
    if debug (args self)
    then _log self (<["epoch"%string := epoch_logging self]>
                    (<["loss"%string := training_loss]> ∅))
    else self in
  let self :=
    if (global_step self =? 1) && debug (args self)
    then emit self [TraceExport (global_step self)] else self in
  try! self <-
    (if evaluate_during_training (args self)
        && (Py.np_mod (global_step self) (eval_steps (args self)) =? 0)
     then try! ' (_, self') <- evaluate self None None in Py.Ok self'
     else Py.Ok self) in
  let self :=
    if Py.np_mod (global_step self) (logging_steps (args self)) =? 0
    then _log self
           (<["epoch"%string := epoch_logging self]>
            (<["learning_rate"%string := lr_scheduler (global_step self)]>
             (<["loss"%string := training_loss]> ∅)))
    else self in
  let self :=
    if Py.np_mod (global_step self) (save_steps (args self)) =? 0
    then emit self [CheckpointSave (global_step self)] else self in
  Py.Ok (self, Py.np_mod (global_step self) (train_steps self) =? 0).

(** The inner [for step, training_loss in enumerate(...)] of [train]. *)
Fixpoint epoch_loop (self : TFTrainer) (lr_scheduler : LearningRateSchedule)
    (epoch_iter step : Z) (gen : training_steps)
  : Py.result (TFTrainer * Optimizer) :=
  match gen with
  | StopIteration acc optimizer =>
      Py.Ok (set_gradient_accumulator self acc, optimizer)
  | Raised e => Py.Raise e
  | Hung => Py.Diverge
  | Yield training_loss acc optimizer rest =>
      let self := set_gradient_accumulator self acc in
      try! ' (self, stop) <-
        training_step_body self lr_scheduler optimizer epoch_iter step
          training_loss in
      if (stop : bool) then Py.Ok (self, optimizer)
      else epoch_loop self lr_scheduler epoch_iter (step + 1) rest
  end.

(** The outer [for epoch_iter in range(start_epoch, int(epochs + 1))]. *)
Fixpoint epochs_loop (self : TFTrainer) (lr_scheduler : LearningRateSchedule)
    (train_ds : list (TF.value * TF.value)) (optimizer : Optimizer)
    (epoch_iters : list Z) : Py.result (TFTrainer * Optimizer) :=
  match epoch_iters with
  | [] => Py.Ok (self, optimizer)
  | epoch_iter :: epoch_iters' =>
      try! ' (self', optimizer') <-
        epoch_loop self lr_scheduler epoch_iter 0
          (_training_steps self train_ds optimizer) in
      epochs_loop self' lr_scheduler train_ds optimizer' epoch_iters'
  end.

(** [ckpt.restore(latest_checkpoint)] puts the saved counter back. *)
Definition restore (self : TFTrainer) (optimizer : Optimizer) : Optimizer :=
  match latest_checkpoint self with
  | Some saved =>
      {| iterations := saved; applied := applied optimizer |}
  | None => optimizer
  end.

(** [train].  What [train] itself writes to the logger and to the summary
    writer on the way (lines 299-327 and 358) is not recorded in [events];
    [events] has the scalars of [_log], the trace export and the checkpoint
    saves. *)
Definition train (self : TFTrainer) : Py.result (TFTrainer * Optimizer) :=
  try! ' (train_ds, self) <- get_train_tfdataset self in
  let self :=
    set_gradient_accumulator self
      (GradientAccumulator.reset (gradient_accumulator self)) in
  let ' (optimizer, lr_scheduler) := get_optimizers self in
  let optimizer := restore self optimizer in
  let start := start_epoch (iterations optimizer) (train_steps self) in
  let epochs := total_epochs (args self) in
  epochs_loop self lr_scheduler train_ds optimizer
    (py_range start (epochs + 1)).

Definition save_model (self : TFTrainer) (output_dir_arg : option string)
  : list event * Py.result unit :=
  let output_dir' := default (output_dir (args self)) output_dir_arg in
  let log := LoggerInfo ("Saving model in " ++ output_dir') in
  if negb (is_pretrained_model (model self))
  then ([log],
        Py.Raise
          (Py.ValueError "Trainer.model appears to not be a PreTrainedModel"))
  else ([log; SavePretrained (output_dir (args self))], Py.Ok tt).

End Methods.

(** ** A small concrete trainer, to run the methods on *)

Module Sample.

Definition example : TF.value * TF.value :=
  (TF.Tensor [[1%Q]], TF.Tensor [[0%Q]]).

(** The first example of a batch stands for the batch. *)
Definition distribute (batch : list (TF.value * TF.value))
  : TF.value * TF.value :=
  match batch with
  | [] => (TF.Tensor [], TF.Tensor [])
  | e :: _ => e
  end.

Definition one_strategy (replicas : Z) : Strategy :=
  {| num_replicas_in_sync := replicas;
     reduce := fun _ _ => Py.Ok (1 # 2)%Q;
     experimental_distribute_dataset := distribute |}.

Definition toy_model : TFPreTrainedModel :=
  {| call := fun _ _ _ => ([1%Q], TF.Tensor [[3%Q]]);
     losses := [(1 # 4)%Q];
     trainable_variables := ["w"%string];
     is_pretrained_model := true |}.

Definition toy_args (replicas budget accumulation : Z)
    (clip : Q) : TFTrainingArguments :=
  {| strategy := one_strategy replicas;
     max_steps := budget;
     num_train_epochs := 3;
     train_batch_size := 1;
     eval_batch_size := 1;
     dataloader_drop_last := false;
     gradient_accumulation_steps := accumulation;
     max_grad_norm := clip;
     learning_rate := (1 # 100)%Q;
     warmup_steps := 0;
     adam_epsilon := (1 # 1000)%Q;
     weight_decay := 0%Q;
     debug := false;
     evaluate_during_training := false;
     eval_steps := 1000;
     logging_steps := 500;
     save_steps := 500;
     output_dir := "out"%string;
     logging_dir := "runs"%string |}.

Definition fresh_optimizer : Optimizer := {| iterations := 0; applied := [] |}.

Definition flat_schedule : LearningRateSchedule := fun _ => (1 # 100)%Q.

Definition trainer (a : TFTrainingArguments)
    (train eval : option (TF.Dataset (TF.value * TF.value))) : TFTrainer :=
  {| model := toy_model;
     args := a;
     train_dataset := train;
     eval_dataset := eval;
     compute_metrics := None;
     prediction_loss_only := false;
     optimizers := Some (fresh_optimizer, flat_schedule);
     gradient_accumulator := GradientAccumulator.init;
     global_step := 0;
     epoch_logging := 0%Q;
     num_train_examples := 0;
     train_steps := 0;
     latest_checkpoint := None;
     has_wandb := false;
     events := [] |}.

(** A trainer that evaluates, with a metrics callback. *)
Definition evaluator (loss_only : bool) : TFTrainer :=
  {| model := toy_model;
     args := toy_args 1 0 1 1;
     train_dataset := None;
     eval_dataset := Some (TF.Finite [example]);
     compute_metrics :=
       Some (fun _ => <["accuracy"%string := 1%Q]>
                        (<["eval_f1"%string := (1 # 2)%Q]> ∅));
     prediction_loss_only := loss_only;
     optimizers := None;
     gradient_accumulator := GradientAccumulator.init;
     global_step := 0;
     epoch_logging := 0%Q;
     num_train_examples := 0;
     train_steps := 0;
     latest_checkpoint := None;
     has_wandb := false;
     events := [] |}.

Definition in_order (_ : Z) (l : list (TF.value * TF.value)) := l.

(** Every shard has gradient [g] for the one variable. *)
Definition constant_gradient (g : Q) (_ _ : TF.value) (_ : list string)
  : list (option Q) := [Some g].

Definition default_optimizer (_ : Q) (_ _ : Z) (_ _ : Q)
  : Optimizer * LearningRateSchedule := (fresh_optimizer, flat_schedule).

End Sample.

(** ** The words of the claims *)

(** Clipping into [[-m, m]]: what is applied for a component [x] is [m] above
    the range, [-m] below it, and [x] inside. *)
Definition clamped (m x y : Q) : Prop :=
  ((m < x)%Q -> y = m)
  /\ ((x < - m)%Q -> y = (- m)%Q)
  /\ ((- m <= x)%Q -> (x <= m)%Q -> y = x).

(** The accumulator holds nothing yet: its counter is at zero and its sums,
    if it has any, are zero, one for each component of [g]. *)
Definition just_reset (g : list Q) (acc : GradientAccumulator.t) : Prop :=
  GradientAccumulator.step acc = 0
  /\ (GradientAccumulator.gradients acc = []
      \/ Forall2 (fun a _ => a == 0)%Q (GradientAccumulator.gradients acc) g).

(** The sums [a] are [k] times the gradient [g]. *)
Definition sums_to (k : Z) (g a : list Q) : Prop :=
  (a = [] /\ k = 0)
  \/ Forall2 (fun ai gi => ai == inject_Z k * gi)%Q a g.

(** The number of shards a micro-batch is run on. *)
Definition shard_count (batch : TF.value * TF.value) : Z :=
  Z.of_nat (length (zip (Replicas.shards (fst batch))
                        (Replicas.shards (snd batch)))).

(** The claim of the accumulate-then-average property as it is worded: the
    gradients handed to the optimizer are [g]. *)
Definition applied_is (self : TFTrainer) (acc : GradientAccumulator.t)
    (g : list Q) : Prop :=
  Forall2 Qeq (clipped_gradients self (scaled_gradients self acc)) g.

(** The optimizer's counter at every loss the generator hands out. *)
Fixpoint iterations_at_yields (gen : training_steps) : list Z :=
  match gen with
  | Yield _ _ optimizer rest => iterations optimizer :: iterations_at_yields rest
  | _ => []
  end.

(** ** More concrete trainers *)

Module Scenario.

(** A trainer with a checkpoint on disk whose optimizer counter is
    [saved]. *)
Definition resumed (a : TFTrainingArguments)
    (train : option (TF.Dataset (TF.value * TF.value))) (saved : Z)
  : TFTrainer :=
  {| model := Sample.toy_model;
     args := a;
     train_dataset := train;
     eval_dataset := None;
     compute_metrics := None;
     prediction_loss_only := false;
     optimizers := Some (Sample.fresh_optimizer, Sample.flat_schedule);
     gradient_accumulator := GradientAccumulator.init;
     global_step := 0;
     epoch_logging := 0%Q;
     num_train_examples := 0;
     train_steps := 0;
     latest_checkpoint := Some saved;
     has_wandb := false;
     events := [] |}.

(** A trainer whose model is not a [TFPreTrainedModel]. *)
Definition with_foreign_model : TFTrainer :=
  {| model :=
       {| call := call Sample.toy_model;
          losses := [];
          trainable_variables := [];
          is_pretrained_model := false |};
     args := Sample.toy_args 1 0 1 1;
     train_dataset := None;
     eval_dataset := None;
     compute_metrics := None;
     prediction_loss_only := false;
     optimizers := None;
     gradient_accumulator := GradientAccumulator.init;
     global_step := 0;
     epoch_logging := 0%Q;
     num_train_examples := 0;
     train_steps := 0;
     latest_checkpoint := None;
     has_wandb := false;
     events := [] |}.

(** An evaluating trainer on [replicas] replicas, with a callback that
    reports a metric called "loss". *)
Definition evaluator_on (replicas : Z) (loss_only : bool) : TFTrainer :=
  {| model := Sample.toy_model;
     args := Sample.toy_args replicas 0 1 1;
     train_dataset := None;
     eval_dataset := Some (TF.Finite [Sample.example]);
     compute_metrics :=
       Some (fun _ => <["loss"%string := 7%Q]>
                        (<["eval_f1"%string := (1 # 2)%Q]> ∅));
     prediction_loss_only := loss_only;
     optimizers := None;
     gradient_accumulator := GradientAccumulator.init;
     global_step := 0;
     epoch_logging := 0%Q;
     num_train_examples := 0;
     train_steps := 0;
     latest_checkpoint := None;
     has_wandb := false;
     events := [] |}.

End Scenario.

(** ** Observations on a run of the generator *)

(** The accumulator the generator leaves behind when the data ends. *)
Fixpoint final_accumulator (gen : training_steps)
  : option GradientAccumulator.t :=
  match gen with
  | StopIteration acc _ => Some acc
  | Yield _ _ _ rest => final_accumulator rest
  | Raised _ | Hung => None
  end.

(** The optimizer the generator leaves behind when the data ends. *)
Fixpoint final_optimizer (gen : training_steps) : option Optimizer :=
  match gen with
  | StopIteration _ optimizer => Some optimizer
  | Yield _ _ _ rest => final_optimizer rest
  | Raised _ | Hung => None
  end.

(** The micro-batch goes through whatever the accumulator holds, and it is
    run on at least one replica. *)
Definition accumulates
    (tf_gradients : TF.value -> TF.value -> list string -> list (option Q))
    (self : TFTrainer) (batch : TF.value * TF.value) : Prop :=
  0 < shard_count batch
  /\ forall acc, exists loss acc',
       _accumulate_gradients tf_gradients self (fst batch) (snd batch) acc
       = Py.Ok (loss, acc').

(** [ceil(a / b)] for a positive [b]. *)
Definition ceiling (a b : Z) : Z := (a + b - 1) / b.

(** Two states of the trainer agree on the step counter, the steps per
    epoch and the configuration. *)
Definition same_counters (s s' : TFTrainer) : Prop :=
  global_step s' = global_step s
  /\ train_steps s' = train_steps s
  /\ args s' = args s.




(** More trainers with particular models and callbacks. *)
Module Fixture.



(** An evaluating trainer whose callback is [callback]. *)
Definition evaluator_with (callback : EvalPrediction -> gmap string Q)
  : TFTrainer :=
  {| model := Sample.toy_model;
     args := Sample.toy_args 1 0 1 1;
     train_dataset := None;
     eval_dataset := Some (TF.Finite [Sample.example]);
     compute_metrics := Some callback;
     prediction_loss_only := false;
     optimizers := None;
     gradient_accumulator := GradientAccumulator.init;
     global_step := 0;
     epoch_logging := 0%Q;
     num_train_examples := 0;
     train_steps := 0;
     latest_checkpoint := None;
     has_wandb := false;
     events := [] |}.

(** A callback that reports the number of prediction rows under two keys,
    one of them colliding with the renamed other. *)
Definition colliding (p : EvalPrediction) : gmap string Q :=
  <["x"%string := 2%Q]>
    (<["eval_x"%string := inject_Z (Z.of_nat (length (ep_predictions p)))]> ∅).

(** A callback that reports the number of prediction rows as "accuracy" and
    the number of label rows as "eval_f1". *)
Definition counting (p : EvalPrediction) : gmap string Q :=
  <["accuracy"%string := inject_Z (Z.of_nat (length (ep_predictions p)))]>
    (<["eval_f1"%string := inject_Z (Z.of_nat (length (ep_label_ids p)))]> ∅).

End Fixture.

(** * Properties *)

(** ** Starting epoch *)

(** The value of [start_epoch]: [floor(I / S) + 1] for a counter [I > 0] and
    [S > 0] steps per epoch, 1 for a counter of zero. *)
Theorem start_epoch_resumes (I S : Z) :
  0 <= I -> 0 < S ->
  (I <> 0 -> start_epoch I S = I / S + 1)
  /\ (I = 0 -> start_epoch I S = 1)
  /\ start_epoch 25 10 = 3.
Proof.
  intros HI HS. unfold start_epoch, Py.np_floordiv. repeat split.
  - intros Hnz.
    destruct (Z.gtb_spec I 0) as [_ | Hle]; [| lia].
    destruct (Z.eqb_spec S 0) as [-> | _]; [lia | reflexivity].
  - intros ->. reflexivity.
Qed.

Lemma start_epoch_resumes_witness :
  start_epoch 47 10 = 47 / 10 + 1 /\ start_epoch 47 10 = 5.
Proof.
  split.
  - apply (start_epoch_resumes 47 10); lia.
  - reflexivity.
Defined.

(** ** Clipping *)

Lemma clip_by_value_above (x m : Q) :
  (0 <= m)%Q -> (m < x)%Q -> TF.clip_by_value x (- m) m = m.
Proof.
  intros Hm Hx. unfold TF.clip_by_value, Qmin, Qmax, GenericMinMax.gmin,
    GenericMinMax.gmax.
  destruct (Qcompare_spec x m) as [He | Hl | Hg].
  - rewrite He in Hx. exfalso. apply (Qlt_irrefl m Hx).
  - exfalso. apply (Qlt_irrefl x). apply (Qlt_trans _ _ _ Hl Hx).
  - destruct (Qcompare_spec m (- m)) as [He | Hl | Hg']; try reflexivity.
    exfalso. apply (Qlt_irrefl m).
    apply (Qlt_le_trans _ _ _ Hl).
    apply (Qle_trans _ 0); [| exact Hm].
    apply (Qopp_le_compat 0 m) in Hm. exact Hm.
Qed.

Lemma clip_by_value_below (x m : Q) :
  (0 <= m)%Q -> (x < - m)%Q -> TF.clip_by_value x (- m) m = (- m)%Q.
Proof.
  intros Hm Hx. unfold TF.clip_by_value, Qmin, Qmax, GenericMinMax.gmin,
    GenericMinMax.gmax.
  assert (Hneg : (- m <= 0)%Q) by (apply (Qopp_le_compat 0 m) in Hm; exact Hm).
  assert (Hxm : (x < m)%Q).
  { apply (Qlt_le_trans _ _ _ Hx). apply (Qle_trans _ 0); assumption. }
  destruct (Qcompare_spec x m) as [He | Hl | Hg].
  - rewrite He in Hxm. exfalso. apply (Qlt_irrefl m Hxm).
  - destruct (Qcompare_spec x (- m)) as [He | Hl' | Hg]; try reflexivity.
    + rewrite He in Hx. exfalso. apply (Qlt_irrefl _ Hx).
    + exfalso. apply (Qlt_irrefl x). apply (Qlt_trans _ _ _ Hx Hg).
  - exfalso. apply (Qlt_irrefl x). apply (Qlt_trans _ _ _ Hxm Hg).
Qed.

Lemma clip_by_value_inside (x m : Q) :
  (- m <= x)%Q -> (x <= m)%Q -> TF.clip_by_value x (- m) m = x.
Proof.
  intros Hlo Hhi. unfold TF.clip_by_value, Qmin, Qmax, GenericMinMax.gmin,
    GenericMinMax.gmax.
  destruct (Qcompare_spec x m) as [He | Hl | Hg].
  - destruct (Qcompare_spec x (- m)) as [He' | Hl' | Hg']; try reflexivity.
    exfalso. apply (Qlt_irrefl x). apply (Qlt_le_trans _ _ _ Hl' Hlo).
  - destruct (Qcompare_spec x (- m)) as [He' | Hl' | Hg']; try reflexivity.
    exfalso. apply (Qlt_irrefl x). apply (Qlt_le_trans _ _ _ Hl' Hlo).
  - exfalso. apply (Qlt_irrefl x). apply (Qle_lt_trans _ _ _ Hhi Hg).
Qed.

Lemma clip_by_value_clamped (m x : Q) :
  (0 <= m)%Q -> clamped m x (TF.clip_by_value x (- m) m).
Proof.
  intros Hm. repeat split.
  - apply clip_by_value_above; assumption.
  - apply clip_by_value_below; assumption.
  - apply clip_by_value_inside.
Qed.

(** C7: at the apply step every gradient component [x] is replaced by
    [max_grad_norm] when [x > max_grad_norm], by [-max_grad_norm] when
    [x < -max_grad_norm], and is left as it is otherwise; these clipped
    values are the ones handed to the optimizer. *)
Theorem step_clips_elementwise (self : TFTrainer) (optimizer : Optimizer)
    (acc : GradientAccumulator.t) :
  (0 <= max_grad_norm (args self))%Q ->
  let scaled := scaled_gradients self acc in
  let clipped := clipped_gradients self scaled in
  Forall2 (clamped (max_grad_norm (args self))) scaled clipped
  /\ applied (fst (_step self optimizer acc))
     = applied optimizer
       ++ [zip clipped (trainable_variables (model self))].
Proof.
  intros Hm scaled clipped. split; [| reflexivity].
  subst clipped. unfold clipped_gradients.
  induction scaled as [| x xs IH]; simpl; constructor.
  - apply clip_by_value_clamped, Hm.
  - exact IH.
Qed.

Lemma step_clips_elementwise_witness :
  let self := Sample.trainer (Sample.toy_args 1 0 1 1) None None in
  let acc := {| GradientAccumulator.step := 1;
                GradientAccumulator.gradients := [3; -3; 1 # 2]%Q |} in
  Forall2 (clamped 1) (scaled_gradients self acc)
    (clipped_gradients self (scaled_gradients self acc))
  /\ applied (fst (_step self Sample.fresh_optimizer acc))
     = applied Sample.fresh_optimizer
       ++ [zip (clipped_gradients self (scaled_gradients self acc))
             (trainable_variables (model self))].
Proof.
  intros self acc.
  apply (step_clips_elementwise self Sample.fresh_optimizer acc).
  unfold Qle; simpl; lia.
Defined.

(** ** The forward pass *)

(** The value [_run_model] returns, in the terms of its own body. *)
Theorem run_model_adds_scaled_regularization (self : TFTrainer)
    (features labels : TF.value) (training : bool) :
  num_replicas_in_sync (strategy (args self)) <> 0 ->
  let kwargs :=
    match labels with
    | TF.Dict items => items
    | _ => [("labels"%string, labels)]
    end in
  let out := call (model self) features kwargs training in
  let replicas := inject_Z (num_replicas_in_sync (strategy (args self))) in
  _run_model self features labels training
  = Py.Ok (map (fun x => x + py_sum (losses (model self)) * (1 / replicas))%Q
               (fst out),
           snd out).
Proof.
  intros Hr kwargs out replicas. unfold _run_model.
  replace (match labels with
           | TF.Dict items => call (model self) features items training
           | _ => call (model self) features [("labels"%string, labels)] training
           end) with out by (subst out kwargs; destruct labels; reflexivity).
  destruct out as [loss logits]. unfold Py.float_div_int, n_gpu.
  destruct (Z.eqb_spec (num_replicas_in_sync (strategy (args self))) 0)
    as [He | _]; [contradiction | reflexivity].
Qed.

Lemma run_model_adds_scaled_regularization_witness :
  _run_model (Sample.trainer (Sample.toy_args 4 0 1 1) None None)
    (TF.Tensor [[1%Q]]) (TF.Tensor [[0%Q]]) true
  = Py.Ok (map (fun x => x + py_sum [(1 # 4)%Q] * (1 / inject_Z 4))%Q [1%Q],
           TF.Tensor [[3%Q]]).
Proof.
  apply (run_model_adds_scaled_regularization
           (Sample.trainer (Sample.toy_args 4 0 1 1) None None)
           (TF.Tensor [[1%Q]]) (TF.Tensor [[0%Q]]) true).
  simpl. lia.
Defined.

(** ** Missing datasets *)

(** C9: training without a train dataset, and evaluating with no eval
    dataset passed and none set, fail with a [ValueError] whose message
    names the missing split; the error ends [train], respectively
    [evaluate]. *)
Theorem missing_dataset_is_fatal
    (shuffle : Z -> list (TF.value * TF.value) -> list (TF.value * TF.value))
    (tf_gradients : TF.value -> TF.value -> list string -> list (option Q))
    (create_optimizer : Q -> Z -> Z -> Q -> Q -> Optimizer * LearningRateSchedule)
    (self : TFTrainer) :
  (train_dataset self = None ->
   exists msg,
     get_train_tfdataset shuffle self = Py.Raise (Py.ValueError msg)
     /\ train shuffle tf_gradients create_optimizer self
        = Py.Raise (Py.ValueError msg)
     /\ Py.contains "train_dataset" msg = true)
  /\ (eval_dataset self = None ->
      forall prediction_loss_only_arg, exists msg,
        get_eval_tfdataset self None = Py.Raise (Py.ValueError msg)
        /\ evaluate self None prediction_loss_only_arg
           = Py.Raise (Py.ValueError msg)
        /\ Py.contains "eval_dataset" msg = true).
Proof.
  split.
  - intros Hnone. eexists. unfold train, get_train_tfdataset.
    rewrite Hnone. simpl. repeat split.
  - intros Hnone plo. eexists. unfold evaluate, get_eval_tfdataset.
    rewrite Hnone. simpl. repeat split.
Qed.

Lemma missing_dataset_is_fatal_witness :
  let self := Sample.trainer (Sample.toy_args 1 0 1 1) None None in
  (exists msg,
     train Sample.in_order (Sample.constant_gradient 1)
       Sample.default_optimizer self = Py.Raise (Py.ValueError msg)
     /\ Py.contains "train_dataset" msg = true)
  /\ (exists msg,
        evaluate self None None = Py.Raise (Py.ValueError msg)
        /\ Py.contains "eval_dataset" msg = true).
Proof.
  intros self.
  destruct (missing_dataset_is_fatal Sample.in_order
              (Sample.constant_gradient 1) Sample.default_optimizer self)
    as [Htrain Heval].
  destruct (Htrain eq_refl) as [msg1 [_ [H2 H2']]].
  destruct (Heval eq_refl None) as [msg2 [_ [H4 H4']]].
  split.
  - exists msg1. split; assumption.
  - exists msg2. split; assumption.
Defined.

(** ** Saving the model *)

(** C10: [save_model] called with an explicit [output_dir] saves the model
    to [args.output_dir] whatever directory was passed; the argument shows
    up in the log message only. *)
Theorem save_model_ignores_output_dir (self : TFTrainer) (dir : string) :
  is_pretrained_model (model self) = true ->
  save_model self (Some dir)
  = ([LoggerInfo ("Saving model in " ++ dir);
      SavePretrained (output_dir (args self))],
     Py.Ok tt).
Proof.
  intros Hm. unfold save_model. rewrite Hm. reflexivity.
Qed.

Lemma save_model_ignores_output_dir_witness :
  save_model (Sample.trainer (Sample.toy_args 1 0 1 1) None None)
    (Some "elsewhere"%string)
  = ([LoggerInfo "Saving model in elsewhere"; SavePretrained "out"],
     Py.Ok tt).
Proof.
  apply (save_model_ignores_output_dir
           (Sample.trainer (Sample.toy_args 1 0 1 1) None None)
           "elsewhere"%string).
  reflexivity.
Defined.

(** ** The evaluation loop *)

Lemma eval_prefix_app (key : string) :
  String.prefix "eval_" ("eval_" ++ key) = true.
Proof. cbv [String.append]. cbn. destruct key; reflexivity. Qed.

Lemma eval_app_inj (a b : string) :
  ("eval_" ++ a = "eval_" ++ b)%string -> a = b.
Proof. cbv [String.append]. intros H. congruence. Qed.

Lemma rename_key_ok (m : gmap string Q) (key : string) :
  is_Some (m !! key) -> exists m', rename_key m key = Py.Ok m'.
Proof.
  intros [v Hv]. unfold rename_key.
  destruct (String.prefix "eval_" key); [eauto |]. rewrite Hv. eauto.
Qed.

(** A prefixed key that is present stays present. *)
Lemma rename_key_keeps_prefixed (m m' : gmap string Q) (key k : string) :
  rename_key m key = Py.Ok m' ->
  String.prefix "eval_" k = true -> is_Some (m !! k) -> is_Some (m' !! k).
Proof.
  unfold rename_key. intros H Hk Hin.
  destruct (String.prefix "eval_" key) eqn:Hp.
  - congruence.
  - destruct (m !! key) as [v |] eqn:Hv; [| discriminate].
    injection H as <-.
    destruct (decide (("eval_" ++ key)%string = k)) as [-> | Hne].
    + rewrite lookup_insert_eq. eauto.
    + rewrite lookup_insert_ne by exact Hne.
      rewrite lookup_delete_ne; [exact Hin |].
      intros ->. congruence.
Qed.

(** A key without the prefix is never put in. *)
Lemma rename_key_no_new_plain (m m' : gmap string Q) (key k : string) :
  rename_key m key = Py.Ok m' ->
  String.prefix "eval_" k = false -> m !! k = None -> m' !! k = None.
Proof.
  unfold rename_key. intros H Hk Hout.
  destruct (String.prefix "eval_" key) eqn:Hp.
  - congruence.
  - destruct (m !! key) as [v |] eqn:Hv; [| discriminate].
    injection H as <-.
    rewrite lookup_insert_ne.
    + destruct (decide (key = k)) as [-> | Hne].
      * apply lookup_delete_eq.
      * rewrite lookup_delete_ne by exact Hne. exact Hout.
    + intros <-. rewrite eval_prefix_app in Hk. discriminate.
Qed.

(** Renaming [key] leaves every other entry alone, but for the one it
    writes. *)
Lemma rename_key_frame (m m' : gmap string Q) (key k : string) :
  rename_key m key = Py.Ok m' ->
  k <> key -> k <> ("eval_" ++ key)%string -> m' !! k = m !! k.
Proof.
  unfold rename_key. intros H Hk Hek.
  destruct (String.prefix "eval_" key) eqn:Hp.
  - congruence.
  - destruct (m !! key) as [v |] eqn:Hv; [| discriminate].
    injection H as <-.
    rewrite lookup_insert_ne by congruence.
    rewrite lookup_delete_ne by congruence. reflexivity.
Qed.

Lemma rename_key_moves (m m' : gmap string Q) (key : string) (v : Q) :
  rename_key m key = Py.Ok m' ->
  String.prefix "eval_" key = false -> m !! key = Some v ->
  m' !! ("eval_" ++ key)%string = Some v /\ m' !! key = None.
Proof.
  unfold rename_key. intros H Hp Hv. rewrite Hp, Hv in H.
  injection H as <-. split.
  - apply lookup_insert_eq.
  - rewrite lookup_insert_ne.
    + apply lookup_delete_eq.
    + intros Heq. rewrite <- Heq, eval_prefix_app in Hp. discriminate.
Qed.

Lemma rename_keys_ok (keys : list string) (m : gmap string Q) :
  NoDup keys -> (forall k, k ∈ keys -> is_Some (m !! k)) ->
  exists m', rename_keys keys m = Py.Ok m'.
Proof.
  revert m. induction keys as [| key keys IH]; intros m Hnd Hin; simpl.
  - eauto.
  - apply NoDup_cons in Hnd as [Hnotin Hnd].
    destruct (rename_key_ok m key) as [m1 H1]; [apply Hin; left |].
    rewrite H1. simpl. apply IH; [exact Hnd |].
    intros k Hk.
    assert (Hne : k <> key) by (intros ->; contradiction).
    destruct (String.prefix "eval_" k) eqn:Hp.
    + apply (rename_key_keeps_prefixed m m1 key k H1 Hp).
      apply Hin. right. exact Hk.
    + rewrite (rename_key_frame m m1 key k H1 Hne).
      * apply Hin. right. exact Hk.
      * intros ->. rewrite eval_prefix_app in Hp. discriminate.
Qed.

Lemma rename_keys_keeps_prefixed (keys : list string) (m m' : gmap string Q)
    (k : string) :
  rename_keys keys m = Py.Ok m' ->
  String.prefix "eval_" k = true -> is_Some (m !! k) -> is_Some (m' !! k).
Proof.
  revert m. induction keys as [| key keys IH]; intros m H Hp Hin; simpl in H.
  - injection H as <-. exact Hin.
  - destruct (rename_key m key) as [m1 | e |] eqn:H1; simpl in H;
      try discriminate.
    apply (IH m1 H Hp). apply (rename_key_keeps_prefixed m m1 key k H1 Hp Hin).
Qed.

Lemma rename_keys_no_new_plain (keys : list string) (m m' : gmap string Q)
    (k : string) :
  rename_keys keys m = Py.Ok m' ->
  String.prefix "eval_" k = false -> m !! k = None -> m' !! k = None.
Proof.
  revert m. induction keys as [| key keys IH]; intros m H Hp Hout; simpl in H.
  - injection H as <-. exact Hout.
  - destruct (rename_key m key) as [m1 | e |] eqn:H1; simpl in H;
      try discriminate.
    apply (IH m1 H Hp). apply (rename_key_no_new_plain m m1 key k H1 Hp Hout).
Qed.

(** The entry written for [key] survives the rest of the loop, which does
    not visit [key] again. *)
Lemma rename_keys_frame_renamed (keys : list string) (m m' : gmap string Q)
    (key : string) :
  rename_keys keys m = Py.Ok m' -> key ∉ keys ->
  m' !! ("eval_" ++ key)%string = m !! ("eval_" ++ key)%string.
Proof.
  revert m. induction keys as [| k keys IH]; intros m H Hnotin; simpl in H.
  - injection H as <-. reflexivity.
  - destruct (rename_key m k) as [m1 | e |] eqn:H1; simpl in H;
      try discriminate.
    apply not_elem_of_cons in Hnotin as [Hne Hnotin].
    rewrite (IH m1 H Hnotin).
    unfold rename_key in H1.
    destruct (String.prefix "eval_" k) eqn:Hp.
    + congruence.
    + apply (rename_key_frame m m1 k).
      * unfold rename_key. rewrite Hp. exact H1.
      * intros Heq. rewrite <- Heq, eval_prefix_app in Hp. discriminate.
      * intros Heq. apply eval_app_inj in Heq. congruence.
Qed.

Lemma rename_keys_moves (keys : list string) (m m' : gmap string Q)
    (key : string) (v : Q) :
  NoDup keys -> rename_keys keys m = Py.Ok m' ->
  key ∈ keys -> String.prefix "eval_" key = false -> m !! key = Some v ->
  m' !! ("eval_" ++ key)%string = Some v /\ m' !! key = None.
Proof.
  revert m. induction keys as [| k keys IH]; intros m Hnd H Hin Hp Hv.
  - inversion Hin.
  - simpl in H.
    destruct (rename_key m k) as [m1 | e |] eqn:H1; simpl in H;
      try discriminate.
    apply NoDup_cons in Hnd as [Hnotin Hnd].
    apply elem_of_cons in Hin as [-> | Hin].
    + destruct (rename_key_moves m m1 k v H1 Hp Hv) as [Hnew Hold]. split.
      * rewrite (rename_keys_frame_renamed keys m1 m' k H Hnotin). exact Hnew.
      * apply (rename_keys_no_new_plain keys m1 m' k H Hp Hold).
    + apply (IH m1 Hnd H Hin Hp).
      assert (Hne : key <> k) by (intros ->; contradiction).
      rewrite (rename_key_frame m m1 k key H1 Hne); [exact Hv |].
      intros ->. rewrite eval_prefix_app in Hp. discriminate.
Qed.

Lemma keys_of_NoDup (m : gmap string Q) : NoDup (keys_of m).
Proof. apply NoDup_fst_map_to_list. Qed.

Lemma elem_of_keys_of (m : gmap string Q) (k : string) :
  k ∈ keys_of m <-> is_Some (m !! k).
Proof.
  unfold keys_of. rewrite list_elem_of_fmap. split.
  - intros [[k' v] [-> Hin]]. apply elem_of_map_to_list in Hin. eauto.
  - intros [v Hv]. exists (k, v). split; [reflexivity |].
    apply elem_of_map_to_list. exact Hv.
Qed.

(** Splits a hypothesis [H] saying that a sequence of fallible calls has
    returned into what each call returned. *)
Ltac returned H :=
  repeat match type of H with
    | Py.bind ?r _ = Py.Ok _ =>
        let E := fresh "E" in
        destruct r as [? | ? |] eqn:E; simpl in H; [| discriminate H ..]
    | (let ' (_, _) := ?p in _) = Py.Ok _ => destruct p
    | (if ?c then _ else _) = Py.Ok _ =>
        let E := fresh "E" in destruct c eqn:E; simpl in H
    | match ?p with (_, _) => _ end = Py.Ok _ => destruct p
    end.

Lemma prediction_step_binds_loss (self : TFTrainer) (loss_only : bool)
    (loc loc' : prediction_locals) (batch : TF.value * TF.value) :
  prediction_step self loss_only loc batch = Py.Ok loc' ->
  is_Some (pl_loss loc').
Proof.
  unfold prediction_step. intros H. returned H;
    injection H as <-; simpl; eauto.
Qed.

Lemma prediction_batches_bind_loss (self : TFTrainer) (loss_only : bool)
    (dataset : list (TF.value * TF.value)) (loc loc' : prediction_locals) :
  prediction_batches self loss_only dataset loc = Py.Ok loc' ->
  dataset <> [] \/ is_Some (pl_loss loc) ->
  is_Some (pl_loss loc').
Proof.
  revert loc. induction dataset as [| batch dataset IH]; intros loc H Hor.
  - simpl in H. injection H as <-. destruct Hor as [Hne | Hs]; [| exact Hs].
    contradiction.
  - simpl in H. returned H. apply (IH _ H). right.
    apply (prediction_step_binds_loss _ _ _ _ _ E).
Qed.

Lemma prediction_step_loss_only (self : TFTrainer)
    (loc loc' : prediction_locals) (batch : TF.value * TF.value) :
  prediction_step self true loc batch = Py.Ok loc' ->
  pl_preds loc' = pl_preds loc /\ pl_label_ids loc' = pl_label_ids loc.
Proof.
  unfold prediction_step. intros H. returned H.
  injection H as <-. split; reflexivity.
Qed.

Lemma prediction_batches_loss_only (self : TFTrainer)
    (dataset : list (TF.value * TF.value)) (loc loc' : prediction_locals) :
  prediction_batches self true dataset loc = Py.Ok loc' ->
  pl_preds loc' = pl_preds loc /\ pl_label_ids loc' = pl_label_ids loc.
Proof.
  revert loc. induction dataset as [| batch dataset IH]; intros loc H.
  - simpl in H. injection H as <-. split; reflexivity.
  - simpl in H. returned H.
    destruct (IH _ H) as [Hp Hl].
    destruct (prediction_step_loss_only _ _ _ _ E) as [Hp' Hl'].
    split; congruence.
Qed.

Lemma prediction_batches_loss_only_ok (self : TFTrainer)
    (dataset : list (TF.value * TF.value)) (loc : prediction_locals) :
  Forall (fun batch : TF.value * TF.value =>
            exists r, _evaluate_steps self (fst batch) (snd batch) = Py.Ok r)
         dataset ->
  exists loc', prediction_batches self true dataset loc = Py.Ok loc'.
Proof.
  intros Hall. revert loc.
  induction Hall as [| [features labels] dataset [[loss logits] Hr] _ IH];
    intros loc; simpl.
  - eauto.
  - simpl in Hr. rewrite Hr. simpl. apply IH.
Qed.

(** Once the batches are through and a loss is bound, the loop returns. *)
Lemma prediction_loop_returns (self : TFTrainer)
    (dataset : list (TF.value * TF.value)) (arg : option bool)
    (loc : prediction_locals) :
  prediction_batches self (loss_only_mode self arg) dataset no_locals
  = Py.Ok loc ->
  dataset <> [] ->
  exists loss renamed,
    pl_loss loc = Some loss
    /\ rename_keys
         (keys_of (<["eval_loss"%string := loss]>
                     (callback_metrics self (pl_preds loc) (pl_label_ids loc))))
         (<["eval_loss"%string := loss]>
            (callback_metrics self (pl_preds loc) (pl_label_ids loc)))
       = Py.Ok renamed
    /\ _prediction_loop self dataset arg
       = Py.Ok {| predictions := pl_preds loc; label_ids := pl_label_ids loc;
                  metrics := renamed |}.
Proof.
  intros Hloc Hne.
  destruct (prediction_batches_bind_loss _ _ _ _ _ Hloc (or_introl Hne))
    as [loss Hloss].
  destruct (rename_keys_ok
              (keys_of (<["eval_loss"%string := loss]>
                 (callback_metrics self (pl_preds loc) (pl_label_ids loc))))
              (<["eval_loss"%string := loss]>
                 (callback_metrics self (pl_preds loc) (pl_label_ids loc))))
    as [renamed Hren].
  - apply keys_of_NoDup.
  - intros k Hk. apply elem_of_keys_of. exact Hk.
  - exists loss, renamed. repeat split; [exact Hloss | exact Hren |].
    unfold _prediction_loop. rewrite Hloc. simpl. rewrite Hloss.
    rewrite Hren. reflexivity.
Qed.

(** The keys of the returned metrics, against those of the mapping the
    renaming loop starts from. *)
Theorem metrics_keys_are_eval_prefixed (self : TFTrainer)
    (dataset : list (TF.value * TF.value)) (arg : option bool)
    (loc : prediction_locals) :
  dataset <> [] ->
  prediction_batches self (loss_only_mode self arg) dataset no_locals
  = Py.Ok loc ->
  exists out,
    _prediction_loop self dataset arg = Py.Ok out
    /\ is_Some (metrics out !! "eval_loss"%string)
    /\ forall key v,
         callback_metrics self (pl_preds loc) (pl_label_ids loc) !! key
         = Some v ->
         if String.prefix "eval_" key
         then is_Some (metrics out !! key)
         else metrics out !! key = None
              /\ metrics out !! ("eval_" ++ key)%string = Some v.
Proof.
  intros Hne Hloc.
  destruct (prediction_loop_returns self dataset arg loc Hloc Hne)
    as [loss [renamed [Hloss [Hren Hout]]]].
  eexists. split; [exact Hout |]. simpl. split.
  - apply (rename_keys_keeps_prefixed _ _ _ _ Hren); [reflexivity |].
    rewrite lookup_insert_eq. eauto.
  - intros key v Hkey. destruct (String.prefix "eval_" key) eqn:Hp.
    + apply (rename_keys_keeps_prefixed _ _ _ _ Hren Hp).
      destruct (decide ("eval_loss"%string = key)) as [<- | Hd].
      * rewrite lookup_insert_eq. eauto.
      * rewrite lookup_insert_ne by exact Hd. eauto.
    + assert (Hd : "eval_loss"%string <> key)
        by (intros <-; discriminate Hp).
      assert (Hv : <["eval_loss"%string := loss]>
                     (callback_metrics self (pl_preds loc) (pl_label_ids loc))
                   !! key = Some v)
        by (rewrite lookup_insert_ne by exact Hd; exact Hkey).
      destruct (rename_keys_moves _ _ _ key v (keys_of_NoDup _) Hren)
        as [Hnew Hold]; [| exact Hp | exact Hv | split; assumption].
      apply elem_of_keys_of. eauto.
Qed.

(** C8: in prediction-loss-only mode the returned [PredictionOutput] has
    neither predictions nor label ids, whatever labels the batches carry;
    and the loop does return when the dataset is not empty and the forward
    passes go through. *)
Theorem loss_only_returns_no_predictions (self : TFTrainer)
    (dataset : list (TF.value * TF.value)) (arg : option bool) :
  loss_only_mode self arg = true ->
  (forall out,
     _prediction_loop self dataset arg = Py.Ok out ->
     predictions out = None /\ label_ids out = None)
  /\ (dataset <> [] ->
      Forall (fun batch : TF.value * TF.value =>
                exists r,
                  _evaluate_steps self (fst batch) (snd batch) = Py.Ok r)
             dataset ->
      exists m,
        _prediction_loop self dataset arg
        = Py.Ok {| predictions := None; label_ids := None; metrics := m |}).
Proof.
  intros Hmode. split.
  - intros out H. unfold _prediction_loop in H. rewrite Hmode in H.
    destruct (prediction_batches self true dataset no_locals)
      as [loc | e |] eqn:Hloc; simpl in H; try discriminate.
    destruct (prediction_batches_loss_only _ _ _ _ Hloc) as [Hp Hl].
    destruct (pl_loss loc); [| discriminate]. returned H.
    injection H as <-. simpl. split; [exact Hp | exact Hl].
  - intros Hne Hall.
    destruct (prediction_batches_loss_only_ok self dataset no_locals Hall)
      as [loc Hloc].
    destruct (prediction_batches_loss_only _ _ _ _ Hloc) as [Hp Hl].
    rewrite <- Hmode in Hloc.
    destruct (prediction_loop_returns self dataset arg loc Hloc Hne)
      as [loss [renamed [_ [_ Hout]]]].
    exists renamed. rewrite Hout, Hp, Hl. reflexivity.
Qed.

Lemma metrics_keys_are_eval_prefixed_witness :
  let loc := {| pl_loss := Some (1 # 2)%Q; pl_preds := Some [[3%Q]];
                pl_label_ids := Some [[0%Q]] |} in
  exists out,
    _prediction_loop (Sample.evaluator false)
      [Sample.distribute [Sample.example]] None = Py.Ok out
    /\ is_Some (metrics out !! "eval_loss"%string)
    /\ forall key v,
         callback_metrics (Sample.evaluator false) (pl_preds loc)
           (pl_label_ids loc) !! key = Some v ->
         if String.prefix "eval_" key
         then is_Some (metrics out !! key)
         else metrics out !! key = None
              /\ metrics out !! ("eval_" ++ key)%string = Some v.
Proof.
  intros loc.
  apply (metrics_keys_are_eval_prefixed (Sample.evaluator false)
           [Sample.distribute [Sample.example]] None loc).
  - discriminate.
  - reflexivity.
Defined.

Lemma loss_only_returns_no_predictions_witness :
  loss_only_mode (Sample.evaluator true) None = true
  /\ exists m,
       _prediction_loop (Sample.evaluator true)
         [Sample.distribute [Sample.example]] None
       = Py.Ok {| predictions := None; label_ids := None; metrics := m |}.
Proof.
  split; [reflexivity |].
  destruct (loss_only_returns_no_predictions (Sample.evaluator true)
              [Sample.distribute [Sample.example]] None eq_refl)
    as [_ Hreturns].
  apply Hreturns.
  - discriminate.
  - constructor; [| constructor]. eexists. reflexivity.
Defined.

(** ** Accumulate, then average *)

Lemma sums_to_start (g : list Q) (acc : GradientAccumulator.t) :
  just_reset g acc -> sums_to 0 g (GradientAccumulator.gradients acc).
Proof.
  intros [_ [Hnil | Hzero]].
  - left. split; [exact Hnil | reflexivity].
  - right. induction Hzero as [| a x l l' Ha _ IH]; constructor.
    + rewrite Ha. ring.
    + exact IH.
Qed.

Lemma sums_to_vadd (k : Z) (g a : list Q) :
  sums_to k g a -> sums_to (k + 1) g (TF.vadd a g).
Proof.
  intros [[-> ->] | Hall]; right.
  - simpl. induction g as [| x g IH]; constructor.
    + change (inject_Z (0 + 1)) with 1%Q. ring.
    + exact IH.
  - induction Hall as [| ai gi a g Hai _ IH]; simpl; constructor.
    + rewrite Hai, inject_Z_plus. change (inject_Z 1) with 1%Q. ring.
    + exact IH.
Qed.

Section IdenticalGradients.

Variable tf_gradients :
  TF.value -> TF.value -> list string -> list (option Q).
Variable self : TFTrainer.
Variable g : list Q.

(** Every replica computes the gradient [g], on every micro-batch. *)
Hypothesis same_gradient :
  forall features labels,
    densify (tf_gradients features labels (trainable_variables (model self)))
            (trainable_variables (model self)) = g.

Lemma forward_accumulates (replica_id : nat) (shard : TF.value * TF.value)
    (acc acc' : GradientAccumulator.t) (loss : list Q) :
  _forward tf_gradients self replica_id shard acc = Py.Ok (loss, acc') ->
  acc' = GradientAccumulator.call replica_id g acc.
Proof.
  unfold _forward. destruct shard as [features labels]. intros H.
  returned H. injection H as _ <-. rewrite same_gradient. reflexivity.
Qed.

Lemma replicas_accumulate (shards : list (TF.value * TF.value)) :
  forall (replica_id : nat) (acc acc' : GradientAccumulator.t)
         (losses : list (list Q)) (k : Z),
    Replicas.traverse_state (_forward tf_gradients self) replica_id shards acc
    = Py.Ok (losses, acc') ->
    sums_to k g (GradientAccumulator.gradients acc) ->
    sums_to (k + Z.of_nat (length shards)) g
            (GradientAccumulator.gradients acc')
    /\ GradientAccumulator.step acc'
       = GradientAccumulator.step acc
         + (match replica_id, shards with
            | O, _ :: _ => 1
            | _, _ => 0
            end).
Proof.
  induction shards as [| shard shards IH];
    intros replica_id acc acc' losses k H Hk.
  - simpl in H. injection H as _ <-. simpl. rewrite Z.add_0_r.
    split; [exact Hk |]. destruct replica_id; lia.
  - simpl in H. returned H. injection H as _ <-.
    apply forward_accumulates in E. subst.
    destruct (IH _ _ _ _ (k + 1) E0) as [Hsum Hstep].
    + simpl. apply sums_to_vadd, Hk.
    + split.
      * replace (k + Z.of_nat (length (shard :: shards)))
          with (k + 1 + Z.of_nat (length shards))
          by (simpl length; lia).
        exact Hsum.
      * rewrite Hstep. simpl.
        destruct replica_id; simpl; destruct shards; lia.
Qed.

Lemma micro_batch_accumulates (features labels : TF.value)
    (acc acc' : GradientAccumulator.t) (loss : Q) (k : Z) :
  _accumulate_gradients tf_gradients self features labels acc
  = Py.Ok (loss, acc') ->
  0 < shard_count (features, labels) ->
  sums_to k g (GradientAccumulator.gradients acc) ->
  sums_to (k + shard_count (features, labels)) g
          (GradientAccumulator.gradients acc')
  /\ GradientAccumulator.step acc' = GradientAccumulator.step acc + 1.
Proof.
  unfold _accumulate_gradients, shard_count. simpl. intros H Hpos Hk.
  returned H. injection H as _ <-.
  destruct (replicas_accumulate _ _ _ _ _ k E Hk) as [Hsum Hstep].
  split; [exact Hsum |]. rewrite Hstep.
  destruct (zip (Replicas.shards features) (Replicas.shards labels));
    [simpl in Hpos; lia | reflexivity].
Qed.

Lemma micro_batches_accumulate (replicas : Z)
    (ds : list (TF.value * TF.value)) :
  forall (acc acc' : GradientAccumulator.t) (k : Z),
    0 < replicas ->
    Forall (fun batch => shard_count batch = replicas) ds ->
    accumulate_micro_batches tf_gradients self ds acc = Py.Ok acc' ->
    sums_to k g (GradientAccumulator.gradients acc) ->
    sums_to (k + Z.of_nat (length ds) * replicas) g
            (GradientAccumulator.gradients acc')
    /\ GradientAccumulator.step acc'
       = GradientAccumulator.step acc + Z.of_nat (length ds).
Proof.
  induction ds as [| [features labels] ds IH];
    intros acc acc' k Hpos Hshards H Hk.
  - simpl in H. injection H as <-. simpl.
    rewrite !Z.add_0_r. split; [exact Hk | reflexivity].
  - apply Forall_cons in Hshards as [Hshard Hshards].
    simpl in H. returned H.
    destruct (micro_batch_accumulates _ _ _ _ _ k E) as [Hsum Hstep];
      [rewrite Hshard; exact Hpos | exact Hk |].
    rewrite Hshard in Hsum.
    destruct (IH _ _ _ Hpos Hshards H Hsum) as [Hsum' Hstep'].
    split.
    + replace (k + Z.of_nat (length ((features, labels) :: ds)) * replicas)
        with (k + replicas + Z.of_nat (length ds) * replicas)
        by (simpl length; lia).
      exact Hsum'.
    + rewrite Hstep', Hstep. simpl length. lia.
Qed.

End IdenticalGradients.

Lemma clip_by_value_Qeq (x y lo hi : Q) :
  (x == y)%Q -> (TF.clip_by_value x lo hi == TF.clip_by_value y lo hi)%Q.
Proof.
  intros H. unfold TF.clip_by_value.
  apply Q.max_compat; [| reflexivity].
  apply Q.min_compat; [exact H | reflexivity].
Qed.

Lemma scaled_recovers (k : Z) (g a : list Q) :
  k <> 0 ->
  Forall2 (fun ai gi => ai == inject_Z k * gi)%Q a g ->
  Forall2 Qeq (map (fun ai => ai / inject_Z k)%Q a) g.
Proof.
  intros Hk Hall.
  assert (Hnz : ~ (inject_Z k == 0)%Q).
  { unfold Qeq. simpl. lia. }
  induction Hall as [| ai gi a g Hai _ IH]; simpl; constructor.
  - rewrite Hai. field. exact Hnz.
  - exact IH.
Qed.

Lemma clipped_of_Qeq (m : Q) (a g : list Q) :
  Forall2 Qeq a g ->
  Forall2 (fun y x => y == TF.clip_by_value x (- m) m)%Q
    (map (fun grad => TF.clip_by_value grad (- m) m) a) g.
Proof.
  intros H. induction H as [| y x ys xs Hyx _ IH]; simpl; constructor.
  - apply clip_by_value_Qeq, Hyx.
  - exact IH.
Qed.

Lemma clipped_in_range (m : Q) (c g : list Q) :
  Forall2 (fun y x => y == TF.clip_by_value x (- m) m)%Q c g ->
  Forall (fun x => - m <= x /\ x <= m)%Q g ->
  Forall2 Qeq c g.
Proof.
  intros H. induction H as [| y x ys xs Hyx _ IH]; intros Hrange.
  - constructor.
  - apply Forall_cons in Hrange as [[Hlo Hhi] Hrange]. constructor.
    + rewrite Hyx, (clip_by_value_inside x m Hlo Hhi). reflexivity.
    + apply IH, Hrange.
Qed.

(** In exact rational arithmetic: after [N >= 1] micro-batches on which
    every replica computes the gradient [g], the accumulator has counted [N]
    micro-batches, its sums divided by [N * replicas] are [g] again, and what
    the optimizer is handed is that average clipped into
    [[-max_grad_norm, max_grad_norm]]: [g] itself when [g] lies in that
    range.  Rounding is not part of this statement. *)
Theorem average_recovers_gradient_then_clips
    (tf_gradients : TF.value -> TF.value -> list string -> list (option Q))
    (self : TFTrainer) (g : list Q) (ds : list (TF.value * TF.value))
    (acc0 acc : GradientAccumulator.t) (optimizer : Optimizer) :
  (forall features labels,
     densify (tf_gradients features labels (trainable_variables (model self)))
             (trainable_variables (model self)) = g) ->
  0 < num_replicas_in_sync (strategy (args self)) ->
  ds <> [] ->
  Forall (fun batch =>
            shard_count batch = num_replicas_in_sync (strategy (args self)))
         ds ->
  just_reset g acc0 ->
  accumulate_micro_batches tf_gradients self ds acc0 = Py.Ok acc ->
  let m := max_grad_norm (args self) in
  GradientAccumulator.step acc = Z.of_nat (length ds)
  /\ Forall2 Qeq (scaled_gradients self acc) g
  /\ Forall2 (fun y x => y == TF.clip_by_value x (- m) m)%Q
       (clipped_gradients self (scaled_gradients self acc)) g
  /\ applied (fst (_step self optimizer acc))
     = applied optimizer
       ++ [zip (clipped_gradients self (scaled_gradients self acc))
               (trainable_variables (model self))]
  /\ (Forall (fun x => - m <= x /\ x <= m)%Q g -> applied_is self acc g).
Proof.
  intros Hsame Hrep Hne Hshards Hreset Hacc m.
  destruct (micro_batches_accumulate tf_gradients self g Hsame
              (num_replicas_in_sync (strategy (args self))) ds acc0 acc 0
              Hrep Hshards Hacc (sums_to_start g acc0 Hreset))
    as [Hsum Hstep].
  destruct Hreset as [Hzero _]. rewrite Hzero in Hstep. simpl in Hstep.
  assert (Hlen : 0 < Z.of_nat (length ds)) by (destruct ds; [congruence | simpl; lia]).
  assert (Hscaled : Forall2 Qeq (scaled_gradients self acc) g).
  { unfold scaled_gradients. rewrite Hstep. simpl in Hsum.
    destruct Hsum as [[_ Hk] | Hall]; [nia |].
    apply scaled_recovers; [nia | exact Hall]. }
  assert (Hclipped :
            Forall2 (fun y x => y == TF.clip_by_value x (- m) m)%Q
              (clipped_gradients self (scaled_gradients self acc)) g).
  { unfold clipped_gradients. fold m. apply clipped_of_Qeq, Hscaled. }
  repeat split; [exact Hstep | exact Hscaled | exact Hclipped |].
  intros Hrange. unfold applied_is.
  apply (clipped_in_range m _ _ Hclipped Hrange).
Qed.

Lemma average_recovers_gradient_then_clips_witness :
  let self := Sample.trainer (Sample.toy_args 1 0 1 1) None None in
  let acc := {| GradientAccumulator.step := 2;
                GradientAccumulator.gradients := [(1 # 2) + (1 # 2)]%Q |} in
  GradientAccumulator.step acc = 2
  /\ Forall2 Qeq (scaled_gradients self acc) [(1 # 2)%Q]
  /\ applied_is self acc [(1 # 2)%Q].
Proof.
  intros self acc.
  destruct (average_recovers_gradient_then_clips
              (Sample.constant_gradient (1 # 2)) self [(1 # 2)%Q]
              [Sample.example; Sample.example] GradientAccumulator.init acc
              Sample.fresh_optimizer)
    as [Hstep [Hscaled [_ [_ Happlied]]]].
  - intros features labels. reflexivity.
  - simpl. lia.
  - discriminate.
  - repeat constructor.
  - split; [reflexivity | left; reflexivity].
  - reflexivity.
  - split; [reflexivity | split; [exact Hscaled |]].
    apply Happlied. repeat constructor; unfold Qle; simpl; lia.
Defined.


(** ** The training loop on small runs *)

(** C1: with [gradient_accumulation_steps = 2] the generator applies the
    gradients and yields right after the first micro-batch, when the
    accumulator has counted one micro-batch and not two; over three
    micro-batches it applies twice. *)
Theorem first_apply_after_one_micro_batch :
  let self := Sample.trainer (Sample.toy_args 1 0 2 1) None None in
  let mb := Sample.distribute [Sample.example] in
  let run := _training_steps (Sample.constant_gradient 1) self in
  gradient_accumulation_steps (args self) = 2
  /\ exists loss acc1,
       _accumulate_gradients (Sample.constant_gradient 1) self (fst mb)
         (snd mb) (gradient_accumulator self) = Py.Ok (loss, acc1)
       /\ GradientAccumulator.step acc1 = 1
       /\ run [mb] Sample.fresh_optimizer
          = Yield loss
              (snd (_step self Sample.fresh_optimizer acc1))
              (fst (_step self Sample.fresh_optimizer acc1))
              (StopIteration
                 (snd (_step self Sample.fresh_optimizer acc1))
                 (fst (_step self Sample.fresh_optimizer acc1)))
       /\ iterations_at_yields (run [mb; mb; mb] Sample.fresh_optimizer)
          = [1; 2].
Proof.
  intros self mb run. split; [reflexivity |].
  eexists. eexists. split; [reflexivity |].
  repeat split.
Qed.

(** C2: with a step budget of 5 and a dataset of two examples in batches of
    one, the batched sequence the loop runs on has two batches and does not
    repeat: [repeat(-1)] reaches the attribute [train_dataset] only.  The one
    epoch ends with the data, after two steps. *)
Theorem step_budget_cut_short_by_dataset :
  let self :=
    Sample.trainer (Sample.toy_args 1 5 1 1)
      (Some (TF.Finite [Sample.example; Sample.example])) None in
  max_steps (args self) = 5
  /\ total_epochs (args self) = 1
  /\ (exists ds self',
        get_train_tfdataset Sample.in_order self = Py.Ok (ds, self')
        /\ length ds = 2%nat
        /\ train_steps self' = 5
        /\ train_dataset self'
           = Some (TF.Repeated [Sample.example; Sample.example]))
  /\ (exists self' optimizer',
        train Sample.in_order (Sample.constant_gradient 1)
          Sample.default_optimizer self = Py.Ok (self', optimizer')
        /\ iterations optimizer' = 2
        /\ global_step self' = 2).
Proof.
  intros self. split; [reflexivity |]. split; [reflexivity |]. split.
  - eexists. eexists. split; [reflexivity |]. repeat split.
  - eexists. eexists. split; [vm_compute; reflexivity |]. split; reflexivity.
Qed.

(** * Further properties of the trainer *)

(** ** The step generator *)

Lemma ceiling_succ (i g : Z) :
  0 < g -> 0 <= i ->
  ceiling (i + 1) g = ceiling i g + (if i mod g =? 0 then 1 else 0).
Proof.
  intros Hg Hi. unfold ceiling.
  pose proof (Z.div_mod i g ltac:(lia)) as Hdm.
  pose proof (Z.mod_pos_bound i g Hg) as Hb.
  assert (H1 : (i + 1 + g - 1) / g = i / g + 1).
  { symmetry. apply (Z.div_unique _ _ _ (i mod g)); lia. }
  rewrite H1.
  destruct (Z.eqb_spec (i mod g) 0) as [He | Hne].
  - assert (H2 : (i + g - 1) / g = i / g).
    { symmetry. apply (Z.div_unique _ _ _ (g - 1)); lia. }
    lia.
  - assert (H2 : (i + g - 1) / g = i / g + 1).
    { symmetry. apply (Z.div_unique _ _ _ (i mod g - 1)); lia. }
    lia.
Qed.

Lemma forward_calls_accumulator
    (tf_gradients : TF.value -> TF.value -> list string -> list (option Q))
    (self : TFTrainer) (replica_id : nat) (shard : TF.value * TF.value)
    (acc acc' : GradientAccumulator.t) (loss : list Q) :
  _forward tf_gradients self replica_id shard acc = Py.Ok (loss, acc') ->
  exists grads, acc' = GradientAccumulator.call replica_id grads acc.
Proof.
  unfold _forward. destruct shard as [features labels]. intros H.
  returned H. injection H as _ <-. eauto.
Qed.

Lemma replicas_count_once
    (tf_gradients : TF.value -> TF.value -> list string -> list (option Q))
    (self : TFTrainer) (shards : list (TF.value * TF.value)) :
  forall (replica_id : nat) (acc acc' : GradientAccumulator.t)
         (losses : list (list Q)),
    Replicas.traverse_state (_forward tf_gradients self) replica_id shards acc
    = Py.Ok (losses, acc') ->
    GradientAccumulator.step acc'
    = GradientAccumulator.step acc
      + (match replica_id, shards with
         | O, _ :: _ => 1
         | _, _ => 0
         end).
Proof.
  induction shards as [| shard shards IH]; intros replica_id acc acc' losses H.
  - simpl in H. injection H as _ <-. destruct replica_id; lia.
  - simpl in H. returned H. injection H as _ <-.
    apply forward_calls_accumulator in E as [grads ->].
    rewrite (IH _ _ _ _ E0). simpl.
    destruct replica_id; simpl; destruct shards; lia.
Qed.

Lemma accumulate_gradients_counts
    (tf_gradients : TF.value -> TF.value -> list string -> list (option Q))
    (self : TFTrainer) (features labels : TF.value)
    (acc acc' : GradientAccumulator.t) (loss : Q) :
  _accumulate_gradients tf_gradients self features labels acc
  = Py.Ok (loss, acc') ->
  0 < shard_count (features, labels) ->
  GradientAccumulator.step acc' = GradientAccumulator.step acc + 1.
Proof.
  unfold _accumulate_gradients, shard_count. simpl. intros H Hpos.
  returned H. injection H as _ <-.
  rewrite (replicas_count_once _ _ _ _ _ _ _ E).
  destruct (zip (Replicas.shards features) (Replicas.shards labels));
    [simpl in Hpos; lia | reflexivity].
Qed.

Lemma consecutive_shift (c : Z) (n : nat) :
  forall a : nat,
    map (fun k => c + 1 + Z.of_nat k) (seq a n)
    = map (fun k => c + Z.of_nat k) (seq (S a) n).
Proof.
  induction n as [| n IH]; intros a; simpl.
  - reflexivity.
  - f_equal; [lia | apply IH].
Qed.

Section Generator.

Variable tf_gradients :
  TF.value -> TF.value -> list string -> list (option Q).
Variable self : TFTrainer.

Let gas := gradient_accumulation_steps (args self).

Lemma iterations_at_yields_from (ds : list (TF.value * TF.value)) :
  forall (i : Z) (acc : GradientAccumulator.t) (optimizer : Optimizer),
    iterations_at_yields
      (_training_steps_from tf_gradients self i ds acc optimizer)
    = map (fun k => iterations optimizer + Z.of_nat k)
          (seq 1 (length (iterations_at_yields
                            (_training_steps_from tf_gradients self i ds acc
                               optimizer)))).
Proof.
  induction ds as [| [features labels] ds IH]; intros i acc optimizer.
  - reflexivity.
  - simpl.
    destruct (_accumulate_gradients tf_gradients self features labels acc)
      as [[loss acc1] | e |]; try reflexivity.
    destruct (Py.int_mod i (gradient_accumulation_steps (args self)))
      as [r | e |]; try reflexivity.
    destruct (r =? 0).
    + simpl. f_equal. etransitivity; [apply IH |]. simpl iterations.
      apply consecutive_shift.
    + apply IH.
Qed.

Lemma final_optimizer_from (ds : list (TF.value * TF.value)) :
  forall (i : Z) (acc : GradientAccumulator.t) (optimizer final : Optimizer),
    final_optimizer (_training_steps_from tf_gradients self i ds acc optimizer)
    = Some final ->
    iterations final
    = iterations optimizer
      + Z.of_nat (length (iterations_at_yields
                            (_training_steps_from tf_gradients self i ds acc
                               optimizer))).
Proof.
  induction ds as [| [features labels] ds IH]; intros i acc optimizer final.
  - simpl. intros H. injection H as <-. lia.
  - simpl.
    destruct (_accumulate_gradients tf_gradients self features labels acc)
      as [[loss acc1] | e |]; try discriminate.
    destruct (Py.int_mod i (gradient_accumulation_steps (args self)))
      as [r | e |]; try discriminate.
    destruct (r =? 0).
    + simpl. intros H. rewrite (IH _ _ _ _ H). simpl iterations.
      simpl length. lia.
    + apply IH.
Qed.

Lemma yield_count_from (ds : list (TF.value * TF.value)) :
  forall (i : Z) (acc : GradientAccumulator.t) (optimizer : Optimizer),
    0 < gas -> 0 <= i ->
    Forall (accumulates tf_gradients self) ds ->
    Z.of_nat (length (iterations_at_yields
                        (_training_steps_from tf_gradients self i ds acc
                           optimizer)))
    = ceiling (i + Z.of_nat (length ds)) gas - ceiling i gas
    /\ exists final,
         final_accumulator
           (_training_steps_from tf_gradients self i ds acc optimizer)
         = Some final.
Proof.
  induction ds as [| [features labels] ds IH];
    intros i acc optimizer Hg Hi Hall.
  - simpl. rewrite Z.add_0_r. split; [lia | eauto].
  - apply Forall_cons in Hall as [[_ Hok] Hall].
    destruct (Hok acc) as [loss [acc1 Hacc]]. simpl in Hacc.
    simpl _training_steps_from. rewrite Hacc.
    unfold Py.int_mod. fold gas.
    destruct (Z.eqb_spec gas 0) as [He | _]; [lia |].
    replace (i + Z.of_nat (length ((features, labels) :: ds)))
      with (i + 1 + Z.of_nat (length ds)) by (simpl length; lia).
    pose proof (ceiling_succ i gas Hg Hi) as Hc.
    destruct (i mod gas =? 0).
    + simpl.
      destruct (IH (i + 1) (GradientAccumulator.reset acc1)
                  (apply_gradients
                     (zip (clipped_gradients self (scaled_gradients self acc1))
                          (trainable_variables (model self))) optimizer)
                  Hg ltac:(lia) Hall) as [Hn Hfin].
      split; [lia | exact Hfin].
    + destruct (IH (i + 1) acc1 optimizer Hg ltac:(lia) Hall) as [Hn Hfin].
      split; [lia | exact Hfin].
Qed.

End Generator.

Lemma mod_pred (i g : Z) :
  0 < g -> i mod g <> 0 -> (i - 1) mod g + 1 = i mod g.
Proof.
  intros Hg Hne.
  pose proof (Z.div_mod i g ltac:(lia)) as Hdm.
  pose proof (Z.mod_pos_bound i g Hg) as Hb.
  assert (H : (i - 1) mod g = i mod g - 1).
  { symmetry. apply (Z.mod_unique _ _ (i / g)); lia. }
  lia.
Qed.

Lemma final_step_from
    (tf_gradients : TF.value -> TF.value -> list string -> list (option Q))
    (self : TFTrainer) (ds : list (TF.value * TF.value)) :
  forall (i : Z) (acc : GradientAccumulator.t) (optimizer : Optimizer),
    0 < gradient_accumulation_steps (args self) -> 0 <= i ->
    Forall (accumulates tf_gradients self) ds ->
    ds <> [] ->
    i = 0
    \/ GradientAccumulator.step acc
       = (i - 1) mod gradient_accumulation_steps (args self) ->
    exists final,
      final_accumulator
        (_training_steps_from tf_gradients self i ds acc optimizer)
      = Some final
      /\ GradientAccumulator.step final
         = (i + Z.of_nat (length ds) - 1)
           mod gradient_accumulation_steps (args self).
Proof.
  induction ds as [| [features labels] ds IH];
    intros i acc optimizer Hg Hi Hall Hne Hinv; [congruence |].
  apply Forall_cons in Hall as [[Hshards Hok] Hall].
  destruct (Hok acc) as [loss [acc1 Hacc]]. simpl in Hacc.
  pose proof (accumulate_gradients_counts _ _ _ _ _ _ _ Hacc Hshards) as Hcount.
  simpl _training_steps_from. rewrite Hacc. unfold Py.int_mod.
  destruct (Z.eqb_spec (gradient_accumulation_steps (args self)) 0)
    as [He | _]; [lia |].
  replace (i + Z.of_nat (length ((features, labels) :: ds)) - 1)
    with (i + 1 + Z.of_nat (length ds) - 1) by (simpl length; lia).
  destruct (Z.eqb_spec (i mod gradient_accumulation_steps (args self)) 0)
    as [Hz | Hnz].
  - simpl. destruct ds as [| b ds].
    + simpl. eexists. split; [reflexivity |]. simpl.
      rewrite Z.add_0_r. replace (i + 1 - 1) with i by lia. lia.
    + apply IH; [exact Hg | lia | exact Hall | discriminate |].
      right. simpl. replace (i + 1 - 1) with i by lia. lia.
  - assert (Hstep : GradientAccumulator.step acc1
                    = i mod gradient_accumulation_steps (args self)).
    { destruct Hinv as [-> | Hinv].
      - rewrite Z.mod_0_l in Hnz by lia. congruence.
      - rewrite Hcount, Hinv. apply mod_pred; assumption. }
    destruct ds as [| b ds].
    + simpl. eexists. split; [reflexivity |].
      rewrite Z.add_0_r. replace (i + 1 - 1) with i by lia. exact Hstep.
    + apply IH; [exact Hg | lia | exact Hall | discriminate |].
      right. replace (i + 1 - 1) with i by lia. exact Hstep.
Qed.

(** X1: every loss the generator hands out comes right after one more
    optimizer update: at the k-th yield the optimizer's counter is its value
    at the start plus k, and when the data ends the counter has advanced by
    the number of yields, no more. *)
Theorem yields_follow_applies
    (tf_gradients : TF.value -> TF.value -> list string -> list (option Q))
    (self : TFTrainer) (ds : list (TF.value * TF.value))
    (optimizer : Optimizer) :
  let gen := _training_steps tf_gradients self ds optimizer in
  iterations_at_yields gen
  = map (fun k => iterations optimizer + Z.of_nat k)
        (seq 1 (length (iterations_at_yields gen)))
  /\ (forall final,
        final_optimizer gen = Some final ->
        iterations final
        = iterations optimizer + Z.of_nat (length (iterations_at_yields gen))).
Proof.
  intros gen. split.
  - apply iterations_at_yields_from.
  - intros final H. apply (final_optimizer_from _ _ _ _ _ _ _ H).
Qed.

Lemma yields_follow_applies_witness :
  let mb := Sample.distribute [Sample.example] in
  let gen :=
    _training_steps (Sample.constant_gradient 1)
      (Sample.trainer (Sample.toy_args 1 0 2 1) None None)
      [mb; mb; mb; mb] Sample.fresh_optimizer in
  iterations_at_yields gen = [1; 2]
  /\ forall final, final_optimizer gen = Some final -> iterations final = 2.
Proof.
  intros mb gen.
  destruct (yields_follow_applies (Sample.constant_gradient 1)
              (Sample.trainer (Sample.toy_args 1 0 2 1) None None)
              [mb; mb; mb; mb] Sample.fresh_optimizer) as [Hy Hf].
  split; [exact Hy | exact Hf].
Defined.

(** X2: over [n] micro-batches that all go through, with
    [gradient_accumulation_steps = g > 0], the generator applies and yields
    [ceil(n / g)] times: at the micro-batches of index 0, g, 2g, ... *)
Theorem yield_count_is_ceiling
    (tf_gradients : TF.value -> TF.value -> list string -> list (option Q))
    (self : TFTrainer) (ds : list (TF.value * TF.value))
    (optimizer : Optimizer) :
  0 < gradient_accumulation_steps (args self) ->
  Forall (accumulates tf_gradients self) ds ->
  Z.of_nat (length (iterations_at_yields
                      (_training_steps tf_gradients self ds optimizer)))
  = ceiling (Z.of_nat (length ds)) (gradient_accumulation_steps (args self)).
Proof.
  intros Hg Hall. unfold _training_steps.
  destruct (yield_count_from tf_gradients self ds 0 (gradient_accumulator self)
              optimizer Hg ltac:(lia) Hall) as [Hn _].
  rewrite Hn. rewrite Z.add_0_l.
  assert (H0 : ceiling 0 (gradient_accumulation_steps (args self)) = 0).
  { unfold ceiling. apply Z.div_small. lia. }
  lia.
Qed.

Lemma sample_accumulates (accumulation : Z) (g : Q) :
  accumulates (Sample.constant_gradient g)
    (Sample.trainer (Sample.toy_args 1 0 accumulation 1) None None)
    (Sample.distribute [Sample.example]).
Proof.
  split; [reflexivity |]. intros acc. eexists. eexists. reflexivity.
Qed.

Lemma yield_count_is_ceiling_witness :
  let mb := Sample.distribute [Sample.example] in
  Z.of_nat (length (iterations_at_yields
                      (_training_steps (Sample.constant_gradient 1)
                         (Sample.trainer (Sample.toy_args 1 0 3 1) None None)
                         [mb; mb; mb; mb; mb] Sample.fresh_optimizer)))
  = ceiling 5 3.
Proof.
  intros mb.
  apply (yield_count_is_ceiling (Sample.constant_gradient 1)
           (Sample.trainer (Sample.toy_args 1 0 3 1) None None)
           [mb; mb; mb; mb; mb] Sample.fresh_optimizer).
  - simpl. lia.
  - repeat constructor; apply (sample_accumulates 3 1).
Defined.

(** X3: when the data ends, the accumulator still holds the micro-batches
    that came after the last apply: [(n - 1) mod g] of them, for [n >= 1]
    micro-batches and [gradient_accumulation_steps = g > 0].  They are not
    applied by this run of the generator. *)
Theorem trailing_micro_batches_stay_accumulated
    (tf_gradients : TF.value -> TF.value -> list string -> list (option Q))
    (self : TFTrainer) (ds : list (TF.value * TF.value))
    (optimizer : Optimizer) :
  0 < gradient_accumulation_steps (args self) ->
  Forall (accumulates tf_gradients self) ds ->
  ds <> [] ->
  exists final,
    final_accumulator (_training_steps tf_gradients self ds optimizer)
    = Some final
    /\ GradientAccumulator.step final
       = (Z.of_nat (length ds) - 1)
         mod gradient_accumulation_steps (args self).
Proof.
  intros Hg Hall Hne. unfold _training_steps.
  destruct (final_step_from tf_gradients self ds 0 (gradient_accumulator self)
              optimizer Hg ltac:(lia) Hall Hne (or_introl eq_refl))
    as [final [Hf Hs]].
  exists final. split; [exact Hf |]. rewrite Hs. f_equal.
Qed.

Lemma trailing_micro_batches_stay_accumulated_witness :
  let mb := Sample.distribute [Sample.example] in
  exists final,
    final_accumulator
      (_training_steps (Sample.constant_gradient 1)
         (Sample.trainer (Sample.toy_args 1 0 3 1) None None)
         [mb; mb; mb] Sample.fresh_optimizer) = Some final
    /\ GradientAccumulator.step final = (3 - 1) mod 3.
Proof.
  intros mb.
  apply (trailing_micro_batches_stay_accumulated (Sample.constant_gradient 1)
           (Sample.trainer (Sample.toy_args 1 0 3 1) None None)
           [mb; mb; mb] Sample.fresh_optimizer).
  - simpl. lia.
  - repeat constructor; apply (sample_accumulates 3 1).
  - discriminate.
Defined.

(** X4: with [gradient_accumulation_steps = 0] the generator raises
    [ZeroDivisionError] at the first micro-batch, after accumulating it, and
    the epoch loop of [train] ends with that error. *)
Theorem zero_accumulation_steps_raise
    (tf_gradients : TF.value -> TF.value -> list string -> list (option Q))
    (self consumer : TFTrainer) (batch : TF.value * TF.value)
    (ds : list (TF.value * TF.value)) (optimizer : Optimizer)
    (lr_scheduler : LearningRateSchedule) (epoch_iter : Z) :
  gradient_accumulation_steps (args self) = 0 ->
  accumulates tf_gradients self batch ->
  _training_steps tf_gradients self (batch :: ds) optimizer
  = Raised Py.ZeroDivisionError
  /\ epoch_loop consumer lr_scheduler epoch_iter 0
       (_training_steps tf_gradients self (batch :: ds) optimizer)
     = Py.Raise Py.ZeroDivisionError.
Proof.
  intros Hz [_ Hok].
  assert (H : _training_steps tf_gradients self (batch :: ds) optimizer
              = Raised Py.ZeroDivisionError).
  { unfold _training_steps. destruct batch as [features labels].
    destruct (Hok (gradient_accumulator self)) as [loss [acc1 Hacc]].
    simpl in Hacc. simpl. rewrite Hacc. unfold Py.int_mod. rewrite Hz.
    reflexivity. }
  rewrite H. split; reflexivity.
Qed.

Lemma zero_accumulation_steps_raise_witness :
  let self := Sample.trainer (Sample.toy_args 1 0 0 1) None None in
  _training_steps (Sample.constant_gradient 1) self
    [Sample.distribute [Sample.example]] Sample.fresh_optimizer
  = Raised Py.ZeroDivisionError
  /\ epoch_loop self Sample.flat_schedule 1 0
       (_training_steps (Sample.constant_gradient 1) self
          [Sample.distribute [Sample.example]] Sample.fresh_optimizer)
     = Py.Raise Py.ZeroDivisionError.
Proof.
  intros self.
  apply (zero_accumulation_steps_raise (Sample.constant_gradient 1) self self
           (Sample.distribute [Sample.example]) [] Sample.fresh_optimizer
           Sample.flat_schedule 1).
  - reflexivity.
  - apply (sample_accumulates 0 1).
Defined.

(** ** One epoch of [train] *)

Lemma evaluate_same_counters (self self' : TFTrainer)
    (eval_dataset_arg : option (TF.Dataset (TF.value * TF.value)))
    (arg : option bool) (m : gmap string Q) :
  evaluate self eval_dataset_arg arg = Py.Ok (m, self') ->
  same_counters self self'.
Proof.
  unfold evaluate. intros H. returned H. injection H as _ <-.
  repeat split.
Qed.

Lemma training_step_body_counters (self self' : TFTrainer)
    (lr_scheduler : LearningRateSchedule) (optimizer : Optimizer)
    (epoch_iter step : Z) (training_loss : Q) (stop : bool) :
  training_step_body self lr_scheduler optimizer epoch_iter step training_loss
  = Py.Ok (self', stop) ->
  global_step self' = iterations optimizer
  /\ train_steps self' = train_steps self
  /\ args self' = args self
  /\ stop = (Py.np_mod (iterations optimizer) (train_steps self) =? 0).
Proof.
  unfold training_step_body. intros H.
  destruct (Py.int_truediv (step + 1) (train_steps self)) as [fraction | e |];
    simpl in H; try discriminate.
  match type of H with
  | Py.bind ?r _ = _ => destruct r as [s1 | e |] eqn:E; simpl in H;
                        try discriminate
  end.
  injection H as <- <-.
  assert (Hs1 : global_step s1 = iterations optimizer
                /\ train_steps s1 = train_steps self /\ args s1 = args self).
  { match type of E with
    | (if ?c then _ else _) = _ => destruct c
    end.
    - destruct (evaluate _ None None) as [[m s2] | e |] eqn:Ev; simpl in E;
        try discriminate.
      injection E as <-.
      destruct (evaluate_same_counters _ _ _ _ _ Ev) as [Hg [Ht Ha]].
      rewrite Hg, Ht, Ha.
      repeat match goal with
             | |- context [if ?c then _ else _] => destruct c
             end; repeat split.
    - injection E as <-.
      repeat match goal with
             | |- context [if ?c then _ else _] => destruct c
             end; repeat split. }
  destruct Hs1 as [Hg [Ht Ha]].
  repeat split.
  - destruct (Py.np_mod (global_step s1) (logging_steps (args s1)) =? 0);
      destruct (Py.np_mod _ (save_steps _) =? 0); simpl; exact Hg.
  - destruct (Py.np_mod (global_step s1) (logging_steps (args s1)) =? 0);
      destruct (Py.np_mod _ (save_steps _) =? 0); simpl; exact Ht.
  - destruct (Py.np_mod (global_step s1) (logging_steps (args s1)) =? 0);
      destruct (Py.np_mod _ (save_steps _) =? 0); simpl; exact Ha.
  - destruct (Py.np_mod (global_step s1) (logging_steps (args s1)) =? 0);
      destruct (Py.np_mod _ (save_steps _) =? 0); simpl;
      rewrite Hg, Ht; reflexivity.
Qed.

Lemma epoch_loop_generated
    (tf_gradients : TF.value -> TF.value -> list string -> list (option Q))
    (self : TFTrainer) (lr_scheduler : LearningRateSchedule) (epoch_iter : Z)
    (ds : list (TF.value * TF.value)) :
  forall (i step : Z) (acc : GradientAccumulator.t) (optimizer : Optimizer)
         (consumer consumer' : TFTrainer) (optimizer' : Optimizer),
    epoch_loop consumer lr_scheduler epoch_iter step
      (_training_steps_from tf_gradients self i ds acc optimizer)
    = Py.Ok (consumer', optimizer') ->
    train_steps consumer' = train_steps consumer
    /\ args consumer' = args consumer
    /\ iterations optimizer <= iterations optimizer'
    /\ (iterations optimizer' = iterations optimizer
        /\ global_step consumer' = global_step consumer
        \/ global_step consumer' = iterations optimizer')
    /\ (forall bound,
          0 < train_steps consumer ->
          bound mod train_steps consumer = 0 ->
          iterations optimizer < bound ->
          iterations optimizer' <= bound).
Proof.
  induction ds as [| [features labels] ds IH];
    intros i step acc optimizer consumer consumer' optimizer' H.
  - simpl in H. injection H as <- <-. simpl.
    repeat split; lia.
  - simpl _training_steps_from in H.
    destruct (_accumulate_gradients tf_gradients self features labels acc)
      as [[loss acc1] | e |]; try discriminate.
    destruct (Py.int_mod i (gradient_accumulation_steps (args self)))
      as [r | e |]; try discriminate.
    destruct (r =? 0).
    + simpl in H.
      destruct (training_step_body _ lr_scheduler _ epoch_iter step loss)
        as [[s1 stop] | e |] eqn:Hbody; simpl in H; try discriminate.
      destruct (training_step_body_counters _ _ _ _ _ _ _ _ Hbody)
        as [Hg [Ht [Ha Hstop]]].
      simpl in Hg, Ht, Ha, Hstop.
      destruct stop.
      * injection H as <- <-. simpl.
        repeat split; try assumption; lia.
      * destruct (IH _ _ _ _ _ _ _ H) as [Ht' [Ha' [Hle [Hgs Hbound]]]].
        simpl in Hle, Hgs, Hbound.
        repeat split; try congruence; try lia.
        intros bound HS Hb Hlt. apply Hbound; [lia | congruence |].
        assert (Hne : iterations optimizer + 1 <> bound).
        { intros Heq. symmetry in Hstop.
          apply Z.eqb_neq in Hstop. apply Hstop.
          unfold Py.np_mod.
          destruct (Z.eqb_spec (train_steps consumer) 0); [lia |].
          rewrite Heq. exact Hb. }
        lia.
    + apply (IH _ _ _ _ _ _ _ H).
Qed.

Lemma next_multiple (a s : Z) :
  0 < s -> (s * (a / s + 1)) mod s = 0 /\ a < s * (a / s + 1).
Proof.
  intros Hs. split.
  - rewrite Z.mul_comm. apply Z.mod_mul. lia.
  - pose proof (Z.div_mod a s ltac:(lia)).
    pose proof (Z.mod_pos_bound a s Hs). lia.
Qed.

(** X5: an epoch stops at the first optimizer step that is a multiple of
    [train_steps]: the optimizer's counter never passes the next multiple of
    [train_steps] above its value at the start of the epoch, and it never
    goes down. *)
Theorem epoch_stops_at_next_multiple
    (tf_gradients : TF.value -> TF.value -> list string -> list (option Q))
    (self self' : TFTrainer) (lr_scheduler : LearningRateSchedule)
    (epoch_iter : Z) (ds : list (TF.value * TF.value))
    (optimizer optimizer' : Optimizer) :
  0 < train_steps self ->
  epoch_loop self lr_scheduler epoch_iter 0
    (_training_steps tf_gradients self ds optimizer)
  = Py.Ok (self', optimizer') ->
  iterations optimizer <= iterations optimizer'
  /\ iterations optimizer'
     <= train_steps self * (iterations optimizer / train_steps self + 1).
Proof.
  intros HS H. unfold _training_steps in H.
  destruct (epoch_loop_generated _ _ _ _ _ _ _ _ _ _ _ _ H)
    as [_ [_ [Hle [_ Hbound]]]].
  destruct (next_multiple (iterations optimizer) (train_steps self) HS)
    as [Hmod Hlt].
  split; [exact Hle |]. apply Hbound; assumption.
Qed.

Lemma epoch_stops_at_next_multiple_witness :
  let mb := Sample.distribute [Sample.example] in
  let self :=
    set_datasets (Sample.trainer (Sample.toy_args 1 0 1 1) None None)
      None 4 2 in
  exists self' optimizer',
    epoch_loop self Sample.flat_schedule 1 0
      (_training_steps (Sample.constant_gradient 1) self [mb; mb; mb; mb]
         Sample.fresh_optimizer) = Py.Ok (self', optimizer')
    /\ 0 <= iterations optimizer'
    /\ iterations optimizer' <= 2 * (0 / 2 + 1).
Proof.
  intros mb self.
  destruct (epoch_loop self Sample.flat_schedule 1 0
              (_training_steps (Sample.constant_gradient 1) self
                 [mb; mb; mb; mb] Sample.fresh_optimizer))
    as [[s o] | e |] eqn:E; [| vm_compute in E; discriminate E ..].
  exists s, o. split; [reflexivity |].
  apply (epoch_stops_at_next_multiple (Sample.constant_gradient 1) self s
           Sample.flat_schedule 1 [mb; mb; mb; mb] Sample.fresh_optimizer o);
    [simpl; lia | exact E].
Defined.

(** X6: after an epoch the trainer's [global_step] is the optimizer's
    iteration counter, unless the epoch applied nothing, in which case both
    are what they were. *)
Theorem global_step_mirrors_optimizer
    (tf_gradients : TF.value -> TF.value -> list string -> list (option Q))
    (self self' : TFTrainer) (lr_scheduler : LearningRateSchedule)
    (epoch_iter : Z) (ds : list (TF.value * TF.value))
    (optimizer optimizer' : Optimizer) :
  epoch_loop self lr_scheduler epoch_iter 0
    (_training_steps tf_gradients self ds optimizer)
  = Py.Ok (self', optimizer') ->
  (iterations optimizer' = iterations optimizer
   /\ global_step self' = global_step self)
  \/ global_step self' = iterations optimizer'.
Proof.
  intros H. unfold _training_steps in H.
  destruct (epoch_loop_generated _ _ _ _ _ _ _ _ _ _ _ _ H)
    as [_ [_ [_ [Hgs _]]]].
  exact Hgs.
Qed.

Lemma global_step_mirrors_optimizer_witness :
  let mb := Sample.distribute [Sample.example] in
  let self :=
    set_datasets (Sample.trainer (Sample.toy_args 1 0 2 1) None None)
      None 3 5 in
  exists self' optimizer',
    epoch_loop self Sample.flat_schedule 1 0
      (_training_steps (Sample.constant_gradient 1) self [mb; mb; mb]
         Sample.fresh_optimizer) = Py.Ok (self', optimizer')
    /\ ((iterations optimizer' = 0 /\ global_step self' = 0)
        \/ global_step self' = iterations optimizer').
Proof.
  intros mb self.
  destruct (epoch_loop self Sample.flat_schedule 1 0
              (_training_steps (Sample.constant_gradient 1) self
                 [mb; mb; mb] Sample.fresh_optimizer))
    as [[s o] | e |] eqn:E; [| vm_compute in E; discriminate E ..].
  exists s, o. split; [reflexivity |].
  apply (global_step_mirrors_optimizer (Sample.constant_gradient 1) self s
           Sample.flat_schedule 1 [mb; mb; mb] Sample.fresh_optimizer o E).
Defined.

(** ** The training dataset and the step budget *)

Lemma get_train_tfdataset_returns
    (shuffle : Z -> list (TF.value * TF.value) -> list (TF.value * TF.value))
    (self self1 : TFTrainer) (ds : list (TF.value * TF.value)) :
  get_train_tfdataset shuffle self = Py.Ok (ds, self1) ->
  exists dataset elems steps batches,
    train_dataset self = Some dataset
    /\ TF.full_pass dataset = Py.Ok elems
    /\ (if max_steps (args self) >? 0 then Py.Ok (max_steps (args self))
        else Py.ceil_div (Z.of_nat (length elems))
                         (train_batch_size (args self))) = Py.Ok steps
    /\ TF.batch (train_batch_size (args self))
                (dataloader_drop_last (args self))
                (shuffle (Z.of_nat (length elems)) elems) = Py.Ok batches
    /\ ds = map (experimental_distribute_dataset (strategy (args self)))
                batches
    /\ self1
       = set_datasets self
           (Some (if max_steps (args self) >? 0
                  then TF.repeat_forever dataset else dataset))
           (Z.of_nat (length elems)) steps.
Proof.
  unfold get_train_tfdataset. intros H.
  destruct (train_dataset self) as [dataset |]; [| discriminate].
  destruct (TF.full_pass dataset) as [elems | e |] eqn:Hpass; simpl in H;
    try discriminate.
  match type of H with
  | Py.bind ?r _ = _ => destruct r as [steps | e |] eqn:Hsteps; simpl in H;
                        try discriminate
  end.
  destruct (TF.batch _ _ _) as [batches | e |] eqn:Hbatch; simpl in H;
    try discriminate.
  injection H as <- <-.
  exists dataset, elems, steps, batches. repeat split; assumption.
Qed.

Lemma py_range_empty (a b : Z) : b <= a -> py_range a b = [].
Proof.
  intros H. unfold py_range.
  replace (Z.to_nat (b - a)) with 0%nat by lia. reflexivity.
Qed.

(** X7: under a step budget ([max_steps > 0]) [train] never takes the
    optimizer past the budget: if the counter it starts from (restored from
    the checkpoint, or the optimizer's own) is below [max_steps], it ends at
    [max_steps] at the latest; the counter never goes down. *)
Theorem train_respects_step_budget
    (shuffle : Z -> list (TF.value * TF.value) -> list (TF.value * TF.value))
    (tf_gradients : TF.value -> TF.value -> list string -> list (option Q))
    (create_optimizer : Q -> Z -> Z -> Q -> Q -> Optimizer * LearningRateSchedule)
    (self self1 self' : TFTrainer) (ds : list (TF.value * TF.value))
    (optimizer' : Optimizer) :
  0 < max_steps (args self) ->
  get_train_tfdataset shuffle self = Py.Ok (ds, self1) ->
  0 <= iterations (restore self1 (fst (get_optimizers create_optimizer self1))) ->
  train shuffle tf_gradients create_optimizer self = Py.Ok (self', optimizer') ->
  iterations (restore self1 (fst (get_optimizers create_optimizer self1)))
  <= iterations optimizer'
  /\ iterations optimizer'
     <= Z.max (max_steps (args self))
              (iterations
                 (restore self1 (fst (get_optimizers create_optimizer self1)))).
Proof.
  intros Hbudget Hget Hstart Htrain.
  destruct (get_train_tfdataset_returns _ _ _ _ Hget)
    as [dataset [elems [steps [batches [_ [_ [Hsteps [_ [_ Hself1]]]]]]]]].
  assert (Hpos : (max_steps (args self) >? 0) = true) by lia.
  rewrite Hpos in Hsteps. injection Hsteps as <-.
  unfold train in Htrain. rewrite Hget in Htrain. simpl in Htrain.
  change (get_optimizers create_optimizer
            (set_gradient_accumulator self1
               (GradientAccumulator.reset (gradient_accumulator self1))))
    with (get_optimizers create_optimizer self1) in Htrain.
  destruct (get_optimizers create_optimizer self1) as [optimizer lr] eqn:Hopt.
  simpl in Hstart |- *.
  change (restore (set_gradient_accumulator self1
                     (GradientAccumulator.reset (gradient_accumulator self1)))
                  optimizer)
    with (restore self1 optimizer) in Htrain.
  set (start := restore self1 optimizer) in *.
  assert (Hts : train_steps self1 = max_steps (args self))
    by (rewrite Hself1; reflexivity).
  assert (Hargs : args self1 = args self) by (rewrite Hself1; reflexivity).
  simpl train_steps in Htrain. simpl args in Htrain.
  rewrite Hts, Hargs in Htrain.
  unfold total_epochs in Htrain. rewrite Hpos in Htrain.
  destruct (Z_lt_le_dec (iterations start) (max_steps (args self)))
    as [Hlt | Hge].
  - assert (Hse : start_epoch (iterations start) (max_steps (args self)) = 1).
    { unfold start_epoch, Py.np_floordiv.
      destruct (iterations start >? 0); [| reflexivity].
      destruct (Z.eqb_spec (max_steps (args self)) 0); [lia |].
      rewrite Z.div_small by lia. reflexivity. }
    rewrite Hse in Htrain. simpl in Htrain.
    match type of Htrain with
    | Py.bind ?r _ = _ => destruct r as [[s o] | e |] eqn:Hepoch;
                          simpl in Htrain; try discriminate
    end.
    injection Htrain as <- <-.
    unfold _training_steps in Hepoch.
    destruct (epoch_loop_generated _ _ _ _ _ _ _ _ _ _ _ _ Hepoch)
      as [_ [_ [Hle [_ Hbound]]]].
    split; [exact Hle |].
    apply Z.le_trans with (m := max_steps (args self)); [| lia].
    apply Hbound; simpl; rewrite ?Hts; try lia.
    apply Z.mod_same. lia.
  - assert (Hse : 2 <= start_epoch (iterations start) (max_steps (args self))).
    { unfold start_epoch, Py.np_floordiv.
      destruct (Z.gtb_spec (iterations start) 0); [| lia].
      destruct (Z.eqb_spec (max_steps (args self)) 0); [lia |].
      assert (1 <= iterations start / max_steps (args self)).
      { apply Z.div_le_lower_bound; lia. }
      lia. }
    rewrite py_range_empty in Htrain by lia. simpl in Htrain.
    injection Htrain as <- <-. lia.
Qed.

Lemma train_respects_step_budget_witness :
  let self :=
    Sample.trainer (Sample.toy_args 1 2 1 1)
      (Some (TF.Finite [Sample.example; Sample.example; Sample.example]))
      None in
  exists self' optimizer',
    train Sample.in_order (Sample.constant_gradient 1)
      Sample.default_optimizer self = Py.Ok (self', optimizer')
    /\ 0 <= iterations optimizer' /\ iterations optimizer' <= Z.max 2 0.
Proof.
  intros self.
  destruct (get_train_tfdataset Sample.in_order self)
    as [[ds self1] | e |] eqn:Hget; [| vm_compute in Hget; discriminate Hget ..].
  destruct (train Sample.in_order (Sample.constant_gradient 1)
              Sample.default_optimizer self)
    as [[s o] | e |] eqn:E; [| vm_compute in E; discriminate E ..].
  exists s, o. split; [reflexivity |].
  assert (Hself1 : self1
                   = set_datasets self
                       (Some (TF.Repeated
                                [Sample.example; Sample.example;
                                 Sample.example])) 3 2).
  { vm_compute in Hget. injection Hget as _ <-. reflexivity. }
  pose proof (train_respects_step_budget Sample.in_order
                (Sample.constant_gradient 1) Sample.default_optimizer
                self self1 s ds o) as H.
  rewrite Hself1 in H. apply H.
  - simpl. lia.
  - rewrite <- Hself1. exact Hget.
  - simpl. lia.
  - exact E.
Defined.

(** X8: resuming under a step budget from a checkpoint whose counter has
    reached the budget runs no epoch: [train] returns with the restored
    counter, no optimizer update, no training step taken ([global_step] as it
    was) and the accumulator reset. *)
Theorem finished_run_applies_nothing
    (shuffle : Z -> list (TF.value * TF.value) -> list (TF.value * TF.value))
    (tf_gradients : TF.value -> TF.value -> list string -> list (option Q))
    (create_optimizer : Q -> Z -> Z -> Q -> Q -> Optimizer * LearningRateSchedule)
    (self self1 : TFTrainer) (ds : list (TF.value * TF.value)) (saved : Z) :
  0 < max_steps (args self) ->
  get_train_tfdataset shuffle self = Py.Ok (ds, self1) ->
  latest_checkpoint self = Some saved ->
  max_steps (args self) <= saved ->
  exists self',
    train shuffle tf_gradients create_optimizer self
    = Py.Ok (self',
             {| iterations := saved;
                applied := applied (fst (get_optimizers create_optimizer self1)) |})
    /\ global_step self' = global_step self
    /\ gradient_accumulator self'
       = GradientAccumulator.reset (gradient_accumulator self).
Proof.
  intros Hbudget Hget Hckpt Hsaved.
  destruct (get_train_tfdataset_returns _ _ _ _ Hget)
    as [dataset [elems [steps [batches [_ [_ [Hsteps [_ [_ Hself1]]]]]]]]].
  assert (Hpos : (max_steps (args self) >? 0) = true) by lia.
  rewrite Hpos in Hsteps. injection Hsteps as <-.
  unfold train. rewrite Hget. simpl.
  change (get_optimizers create_optimizer
            (set_gradient_accumulator self1
               (GradientAccumulator.reset (gradient_accumulator self1))))
    with (get_optimizers create_optimizer self1).
  destruct (get_optimizers create_optimizer self1) as [optimizer lr].
  unfold restore. simpl latest_checkpoint.
  assert (Hck1 : latest_checkpoint self1 = Some saved)
    by (rewrite Hself1; exact Hckpt).
  rewrite Hck1. simpl iterations.
  assert (Hts : train_steps self1 = max_steps (args self))
    by (rewrite Hself1; reflexivity).
  assert (Hargs : args self1 = args self) by (rewrite Hself1; reflexivity).
  simpl train_steps. simpl args. rewrite Hts, Hargs.
  unfold total_epochs. rewrite Hpos.
  rewrite py_range_empty.
  - simpl. eexists. split; [reflexivity |]. rewrite Hself1. split; reflexivity.
  - unfold start_epoch, Py.np_floordiv.
    destruct (Z.gtb_spec saved 0); [| lia].
    destruct (Z.eqb_spec (max_steps (args self)) 0); [lia |].
    assert (1 <= saved / max_steps (args self)).
    { apply Z.div_le_lower_bound; lia. }
    lia.
Qed.

Lemma finished_run_applies_nothing_witness :
  let self :=
    Scenario.resumed (Sample.toy_args 1 5 1 1)
      (Some (TF.Finite [Sample.example; Sample.example])) 7 in
  exists self',
    train Sample.in_order (Sample.constant_gradient 1)
      Sample.default_optimizer self
    = Py.Ok (self', {| iterations := 7; applied := [] |})
    /\ global_step self' = 0
    /\ gradient_accumulator self'
       = GradientAccumulator.reset GradientAccumulator.init.
Proof.
  intros self.
  apply (finished_run_applies_nothing Sample.in_order
           (Sample.constant_gradient 1) Sample.default_optimizer self
           (set_datasets self
              (Some (TF.Repeated [Sample.example; Sample.example])) 2 5)
           [Sample.example; Sample.example] 7).
  - simpl. lia.
  - reflexivity.
  - reflexivity.
  - simpl. lia.
Defined.

(** X9: once [get_train_tfdataset] has run under a step budget on a dataset
    that is not empty, [self.train_dataset] repeats without end, and a second
    call, hence a second [train], never returns: counting the examples does
    not finish. *)
Theorem second_call_under_budget_hangs
    (shuffle : Z -> list (TF.value * TF.value) -> list (TF.value * TF.value))
    (tf_gradients : TF.value -> TF.value -> list string -> list (option Q))
    (create_optimizer : Q -> Z -> Z -> Q -> Q -> Optimizer * LearningRateSchedule)
    (self self1 : TFTrainer) (ds : list (TF.value * TF.value)) :
  0 < max_steps (args self) ->
  get_train_tfdataset shuffle self = Py.Ok (ds, self1) ->
  num_train_examples self1 <> 0 ->
  get_train_tfdataset shuffle self1 = Py.Diverge
  /\ train shuffle tf_gradients create_optimizer self1 = Py.Diverge.
Proof.
  intros Hbudget Hget Hn.
  destruct (get_train_tfdataset_returns _ _ _ _ Hget)
    as [dataset [elems [steps [batches [_ [Hpass [_ [_ [_ Hself1]]]]]]]]].
  assert (Hpos : (max_steps (args self) >? 0) = true) by lia.
  rewrite Hpos in Hself1.
  assert (Hrep : train_dataset self1 = Some (TF.Repeated elems)).
  { rewrite Hself1. simpl. f_equal.
    destruct dataset as [l | l]; simpl in Hpass |- *.
    - injection Hpass as <-. reflexivity.
    - destruct l; [injection Hpass as <-; reflexivity | discriminate]. }
  assert (Hne : elems <> []).
  { intros ->. apply Hn. rewrite Hself1. reflexivity. }
  assert (H : get_train_tfdataset shuffle self1 = Py.Diverge).
  { unfold get_train_tfdataset. rewrite Hrep.
    destruct elems; [congruence | reflexivity]. }
  split; [exact H |]. unfold train. rewrite H. reflexivity.
Qed.

Lemma second_call_under_budget_hangs_witness :
  let self :=
    Sample.trainer (Sample.toy_args 1 5 1 1)
      (Some (TF.Finite [Sample.example; Sample.example])) None in
  let self1 :=
    set_datasets self
      (Some (TF.Repeated [Sample.example; Sample.example])) 2 5 in
  get_train_tfdataset Sample.in_order self1 = Py.Diverge
  /\ train Sample.in_order (Sample.constant_gradient 1)
       Sample.default_optimizer self1 = Py.Diverge.
Proof.
  intros self self1.
  apply (second_call_under_budget_hangs Sample.in_order
           (Sample.constant_gradient 1) Sample.default_optimizer self self1
           [Sample.example; Sample.example]).
  - simpl. lia.
  - reflexivity.
  - simpl. lia.
Defined.

Lemma ceiling_is_ceil_div (a b : Z) :
  0 < b -> Py.ceil_div a b = Py.Ok (ceiling a b).
Proof.
  intros Hb. unfold Py.ceil_div, ceiling.
  destruct (Z.eqb_spec b 0) as [He | _]; [lia |]. f_equal.
  pose proof (Z.div_mod (a + b - 1) b ltac:(lia)) as Hdm.
  pose proof (Z.mod_pos_bound (a + b - 1) b Hb) as Hr.
  assert (H : - a / b = - ((a + b - 1) / b)).
  { symmetry.
    apply (Z.div_unique _ _ _ (b - 1 - (a + b - 1) mod b)); lia. }
  lia.
Qed.

Lemma batch_fuel_length {A} (n : nat) (drop_remainder : bool) :
  (0 < n)%nat ->
  forall (fuel : nat) (l : list A),
    (length l <= fuel)%nat ->
    Z.of_nat (length (TF.batch_fuel fuel n drop_remainder l))
    = if drop_remainder
      then Z.of_nat (length l) / Z.of_nat n
      else ceiling (Z.of_nat (length l)) (Z.of_nat n).
Proof.
  intros Hn. induction fuel as [| fuel IH]; intros l Hlen.
  - destruct l; [| simpl in Hlen; lia]. simpl.
    destruct drop_remainder; [reflexivity |].
    unfold ceiling. symmetry. apply Z.div_small. lia.
  - destruct l as [| x l'].
    + simpl. destruct drop_remainder; [reflexivity |].
      unfold ceiling. symmetry. apply Z.div_small. lia.
    + change (TF.batch_fuel (S fuel) n drop_remainder (x :: l'))
        with (if (length (firstn n (x :: l')) <? n)%nat
              then (if drop_remainder then [] else [firstn n (x :: l')])
              else firstn n (x :: l')
                   :: TF.batch_fuel fuel n drop_remainder
                        (skipn n (x :: l'))).
      set (l := x :: l') in *.
      assert (Hpos : (0 < length l)%nat) by (subst l; simpl; lia).
      clearbody l.
      rewrite List.length_firstn.
      destruct (Nat.ltb_spec (Nat.min n (length l)) n) as [Hshort | Hfull].
      * destruct drop_remainder; simpl.
        -- symmetry. apply Z.div_small. lia.
        -- unfold ceiling.
           apply (Z.div_unique _ _ _ (Z.of_nat (length l) - 1)); lia.
      * simpl length. rewrite Nat2Z.inj_succ, IH.
        -- rewrite List.length_skipn.
           replace (Z.of_nat (length l - n))
             with (Z.of_nat (length l) - Z.of_nat n) by lia.
           destruct drop_remainder.
           ++ replace (Z.of_nat (length l))
                with (Z.of_nat (length l) - Z.of_nat n + 1 * Z.of_nat n)
                at 2 by lia.
              rewrite Z.div_add by lia. lia.
           ++ unfold ceiling.
              replace (Z.of_nat (length l) + Z.of_nat n - 1)
                with (Z.of_nat (length l) - Z.of_nat n + Z.of_nat n - 1
                      + 1 * Z.of_nat n) by lia.
              rewrite Z.div_add by lia. lia.
        -- rewrite List.length_skipn. lia.
Qed.

(** X10: without a step budget, [train_steps] is the number of examples over
    the batch size, rounded up, and that is the number of batches of an
    epoch when [dataloader_drop_last] is off; when it is on, the epoch has
    the quotient rounded down. *)
Theorem batches_per_epoch
    (shuffle : Z -> list (TF.value * TF.value) -> list (TF.value * TF.value))
    (self self1 : TFTrainer) (ds : list (TF.value * TF.value)) :
  (forall n l, length (shuffle n l) = length l) ->
  max_steps (args self) <= 0 ->
  get_train_tfdataset shuffle self = Py.Ok (ds, self1) ->
  0 < train_batch_size (args self)
  /\ train_steps self1
     = ceiling (num_train_examples self1) (train_batch_size (args self))
  /\ Z.of_nat (length ds)
     = if dataloader_drop_last (args self)
       then num_train_examples self1 / train_batch_size (args self)
       else train_steps self1.
Proof.
  intros Hshuffle Hbudget Hget.
  destruct (get_train_tfdataset_returns _ _ _ _ Hget)
    as [dataset [elems [steps [batches [_ [_ [Hsteps [Hbatch [Hds Hself1]]]]]]]]].
  assert (Hno : (max_steps (args self) >? 0) = false) by lia.
  rewrite Hno in Hsteps.
  unfold TF.batch in Hbatch.
  destruct (Z.leb_spec (train_batch_size (args self)) 0) as [| Hbs];
    [discriminate |].
  injection Hbatch as <-.
  rewrite (ceiling_is_ceil_div _ _ Hbs) in Hsteps. injection Hsteps as <-.
  split; [exact Hbs |]. rewrite Hself1. simpl. split; [reflexivity |].
  rewrite Hds, length_map, batch_fuel_length by lia.
  rewrite Hshuffle, Z2Nat.id by lia.
  destruct (dataloader_drop_last (args self)); reflexivity.
Qed.

Lemma batches_per_epoch_witness :
  let self :=
    Sample.trainer (Sample.toy_args 1 0 1 1)
      (Some (TF.Finite [Sample.example; Sample.example; Sample.example]))
      None in
  exists ds self1,
    get_train_tfdataset Sample.in_order self = Py.Ok (ds, self1)
    /\ train_steps self1 = ceiling 3 1
    /\ Z.of_nat (length ds) = train_steps self1.
Proof.
  intros self.
  destruct (get_train_tfdataset Sample.in_order self)
    as [[ds self1] | e |] eqn:Hget; [| vm_compute in Hget; discriminate Hget ..].
  exists ds, self1. split; [reflexivity |].
  destruct (batches_per_epoch Sample.in_order self self1 ds)
    as [_ [Hsteps Hlen]].
  - intros n l. reflexivity.
  - simpl. lia.
  - exact Hget.
  - vm_compute in Hget. injection Hget as <- <-.
    split; [exact Hsteps | exact Hlen].
Defined.

(** ** More on the evaluation loop *)

Lemma prediction_loop_returned (self : TFTrainer)
    (dataset : list (TF.value * TF.value)) (arg : option bool)
    (out : PredictionOutput) :
  _prediction_loop self dataset arg = Py.Ok out ->
  exists loc loss,
    prediction_batches self (loss_only_mode self arg) dataset no_locals
    = Py.Ok loc
    /\ pl_loss loc = Some loss
    /\ rename_keys
         (keys_of (<["eval_loss"%string := loss]>
                     (callback_metrics self (pl_preds loc) (pl_label_ids loc))))
         (<["eval_loss"%string := loss]>
            (callback_metrics self (pl_preds loc) (pl_label_ids loc)))
       = Py.Ok (metrics out)
    /\ predictions out = pl_preds loc
    /\ label_ids out = pl_label_ids loc.
Proof.
  unfold _prediction_loop. intros H.
  destruct (prediction_batches self (loss_only_mode self arg) dataset no_locals)
    as [loc | e |]; simpl in H; try discriminate.
  destruct (pl_loss loc) as [loss |] eqn:Hloss; [| discriminate].
  match type of H with
  | Py.bind ?r _ = _ => destruct r as [renamed | e |] eqn:Hren; simpl in H;
                        try discriminate
  end.
  injection H as <-. exists loc, loss. simpl.
  split; [reflexivity |]. split; [exact Hloss |]. split; [exact Hren |].
  split; reflexivity.
Qed.

Lemma prediction_step_loss (self : TFTrainer) (loss_only : bool)
    (loc loc' : prediction_locals) (features labels logits : TF.value)
    (loss : Q) :
  prediction_step self loss_only loc (features, labels) = Py.Ok loc' ->
  _evaluate_steps self features labels = Py.Ok (loss, logits) ->
  pl_loss loc' = Some loss.
Proof.
  unfold prediction_step. intros H Hev. rewrite Hev in H. simpl in H.
  returned H; injection H as <-; reflexivity.
Qed.

Lemma prediction_batches_last_loss (self : TFTrainer) (loss_only : bool)
    (before : list (TF.value * TF.value)) (features labels logits : TF.value)
    (loss : Q) :
  forall loc loc',
    prediction_batches self loss_only (before ++ [(features, labels)]) loc
    = Py.Ok loc' ->
    _evaluate_steps self features labels = Py.Ok (loss, logits) ->
    pl_loss loc' = Some loss.
Proof.
  induction before as [| batch before IH]; intros loc loc' H Hev.
  - change (Py.bind (prediction_step self loss_only loc (features, labels))
                    (fun loc1 => Py.Ok loc1) = Py.Ok loc') in H.
    destruct (prediction_step self loss_only loc (features, labels))
      as [loc1 | e |] eqn:Hstep; try discriminate.
    injection H as <-. apply (prediction_step_loss _ _ _ _ _ _ _ _ Hstep Hev).
  - change (Py.bind (prediction_step self loss_only loc batch)
                    (fun loc1 =>
                       prediction_batches self loss_only
                         (before ++ [(features, labels)]) loc1)
            = Py.Ok loc') in H.
    destruct (prediction_step self loss_only loc batch)
      as [loc1 | e |]; try discriminate.
    apply (IH _ _ H Hev).
Qed.

(** X11: on a dataset without batches the loop never binds [loss] and
    raises [UnboundLocalError]; so do [evaluate] and [predict] on an empty
    dataset. *)
Theorem empty_dataset_raises_unbound_loss (self : TFTrainer)
    (arg : option bool) :
  _prediction_loop self [] arg = Py.Raise (Py.UnboundLocalError "loss")
  /\ (0 < eval_batch_size (args self) ->
      evaluate self (Some (TF.Finite [])) arg
      = Py.Raise (Py.UnboundLocalError "loss")
      /\ predict self (TF.Finite [])
         = Py.Raise (Py.UnboundLocalError "loss")).
Proof.
  split; [reflexivity |]. intros Hbs.
  unfold evaluate, predict, get_eval_tfdataset, get_test_tfdataset, TF.batch.
  destruct (eval_dataset self); simpl;
    destruct (Z.leb_spec (eval_batch_size (args self)) 0); try lia;
    split; reflexivity.
Qed.

Lemma empty_dataset_raises_unbound_loss_witness :
  evaluate (Sample.evaluator false) (Some (TF.Finite [])) None
  = Py.Raise (Py.UnboundLocalError "loss")
  /\ predict (Sample.evaluator false) (TF.Finite [])
     = Py.Raise (Py.UnboundLocalError "loss").
Proof.
  destruct (empty_dataset_raises_unbound_loss (Sample.evaluator false) None)
    as [_ H].
  apply H. simpl. lia.
Defined.

(** X12: every key of the metrics the loop returns starts with "eval_". *)
Theorem returned_metrics_are_all_prefixed (self : TFTrainer)
    (dataset : list (TF.value * TF.value)) (arg : option bool)
    (out : PredictionOutput) (key : string) :
  _prediction_loop self dataset arg = Py.Ok out ->
  is_Some (metrics out !! key) ->
  String.prefix "eval_" key = true.
Proof.
  intros H Hkey.
  destruct (prediction_loop_returned _ _ _ _ H)
    as [loc [loss [_ [_ [Hren _]]]]].
  destruct (String.prefix "eval_" key) eqn:Hp; [reflexivity |].
  exfalso.
  set (m0 := <["eval_loss"%string := loss]>
               (callback_metrics self (pl_preds loc) (pl_label_ids loc)))
    in *.
  assert (Hnone : metrics out !! key = None).
  { destruct (m0 !! key) as [v |] eqn:Hv.
    - destruct (rename_keys_moves _ _ _ key v (keys_of_NoDup m0) Hren)
        as [_ Hgone]; [| exact Hp | exact Hv | exact Hgone].
      apply elem_of_keys_of. eauto.
    - apply (rename_keys_no_new_plain _ _ _ _ Hren Hp Hv). }
  rewrite Hnone in Hkey. destruct Hkey as [v Hv]. discriminate.
Qed.

Lemma returned_metrics_are_all_prefixed_witness :
  exists out,
    _prediction_loop (Sample.evaluator false)
      [Sample.distribute [Sample.example]] None = Py.Ok out
    /\ is_Some (metrics out !! "eval_accuracy"%string)
    /\ String.prefix "eval_" "eval_accuracy" = true.
Proof.
  destruct (_prediction_loop (Sample.evaluator false)
              [Sample.distribute [Sample.example]] None)
    as [out | e |] eqn:E; [| vm_compute in E; discriminate E ..].
  assert (Hkey : is_Some (metrics out !! "eval_accuracy"%string)).
  { vm_compute in E. injection E as <-. vm_compute. eauto. }
  exists out. split; [reflexivity |]. split; [exact Hkey |].
  apply (returned_metrics_are_all_prefixed (Sample.evaluator false)
           [Sample.distribute [Sample.example]] None out
           "eval_accuracy"%string E Hkey).
Defined.

(** X13: in prediction-loss-only mode, and when the trainer has no metrics
    callback, the metrics the loop returns hold "eval_loss" and nothing
    else. *)
Theorem metrics_without_callback (self : TFTrainer)
    (dataset : list (TF.value * TF.value)) (arg : option bool)
    (out : PredictionOutput) :
  loss_only_mode self arg = true \/ compute_metrics self = None ->
  _prediction_loop self dataset arg = Py.Ok out ->
  exists loss, metrics out = {["eval_loss"%string := loss]}.
Proof.
  intros Hmode H.
  destruct (prediction_loop_returned _ _ _ _ H)
    as [loc [loss [Hloc [_ [Hren _]]]]].
  assert (Hempty : callback_metrics self (pl_preds loc) (pl_label_ids loc) = ∅).
  { unfold callback_metrics. destruct Hmode as [Hmode | Hnone].
    - rewrite Hmode in Hloc.
      destruct (prediction_batches_loss_only _ _ _ _ Hloc) as [Hp _].
      simpl in Hp. rewrite Hp. destruct (compute_metrics self); reflexivity.
    - rewrite Hnone. reflexivity. }
  rewrite Hempty in Hren. rewrite insert_empty in Hren.
  unfold keys_of in Hren. rewrite map_to_list_singleton in Hren.
  simpl in Hren. injection Hren as <-. exists loss. reflexivity.
Qed.

Lemma metrics_without_callback_witness :
  exists loss,
    _prediction_loop (Sample.evaluator true)
      [Sample.distribute [Sample.example]] None
    = Py.Ok {| predictions := None; label_ids := None;
               metrics := {["eval_loss"%string := loss]} |}.
Proof.
  destruct (_prediction_loop (Sample.evaluator true)
              [Sample.distribute [Sample.example]] None)
    as [out | e |] eqn:E; [| vm_compute in E; discriminate E ..].
  destruct (metrics_without_callback (Sample.evaluator true)
              [Sample.distribute [Sample.example]] None out
              (or_introl eq_refl) E) as [loss Hm].
  exists loss. rewrite <- Hm.
  vm_compute in E. injection E as <-. reflexivity.
Defined.

(** X14: the value under "eval_loss" is the loss of the last batch, not a
    mean over the batches; and when the metrics callback reports a metric
    called "loss", that metric takes its place. *)
Theorem eval_loss_is_last_batch_or_callback (self : TFTrainer)
    (before : list (TF.value * TF.value)) (features labels logits : TF.value)
    (loss : Q) (arg : option bool) (out : PredictionOutput) :
  _evaluate_steps self features labels = Py.Ok (loss, logits) ->
  _prediction_loop self (before ++ [(features, labels)]) arg = Py.Ok out ->
  metrics out !! "eval_loss"%string
  = Some (default loss
            (callback_metrics self (predictions out) (label_ids out)
             !! "loss"%string)).
Proof.
  intros Hev H.
  destruct (prediction_loop_returned _ _ _ _ H)
    as [loc [loss' [Hloc [Hloss [Hren [Hp Hl]]]]]].
  rewrite (prediction_batches_last_loss _ _ _ _ _ _ _ _ _ Hloc Hev) in Hloss.
  injection Hloss as <-. rewrite Hp, Hl.
  set (user := callback_metrics self (pl_preds loc) (pl_label_ids loc)) in *.
  destruct (user !! "loss"%string) as [v |] eqn:Hv; simpl.
  - destruct (rename_keys_moves _ _ _ "loss"%string v (keys_of_NoDup _) Hren)
      as [Hnew _]; [| reflexivity | | exact Hnew].
    + apply elem_of_keys_of. rewrite lookup_insert_ne by discriminate. eauto.
    + rewrite lookup_insert_ne by discriminate. exact Hv.
  - change "eval_loss"%string with ("eval_" ++ "loss")%string.
    rewrite (rename_keys_frame_renamed _ _ _ "loss"%string Hren).
    + apply lookup_insert_eq.
    + intros Hin. apply elem_of_keys_of in Hin as [w Hw].
      rewrite lookup_insert_ne in Hw by discriminate. congruence.
Qed.

Lemma eval_loss_is_last_batch_or_callback_witness :
  exists out,
    _prediction_loop (Scenario.evaluator_on 1 false)
      ([] ++ [Sample.distribute [Sample.example]]) None = Py.Ok out
    /\ metrics out !! "eval_loss"%string = Some 7%Q.
Proof.
  destruct (_prediction_loop (Scenario.evaluator_on 1 false)
              ([] ++ [Sample.distribute [Sample.example]]) None)
    as [out | e |] eqn:E; [| vm_compute in E; discriminate E ..].
  exists out. split; [reflexivity |].
  rewrite (eval_loss_is_last_batch_or_callback (Scenario.evaluator_on 1 false)
             [] (TF.Tensor [[1%Q]]) (TF.Tensor [[0%Q]]) (TF.Tensor [[3%Q]])
             (1 # 2)%Q None out eq_refl E).
  vm_compute in E. injection E as <-. reflexivity.
Defined.










(** ** Saving, evaluating, predicting *)

(** X17: when the trainer's model is not a [TFPreTrainedModel],
    [save_model] raises [ValueError] and saves nothing, whatever directory it
    is given; the log line has been written by then. *)
Theorem save_model_rejects_foreign_model (self : TFTrainer)
    (output_dir_arg : option string) :
  is_pretrained_model (model self) = false ->
  snd (save_model self output_dir_arg)
  = Py.Raise
      (Py.ValueError "Trainer.model appears to not be a PreTrainedModel")
  /\ fst (save_model self output_dir_arg)
     = [LoggerInfo
          ("Saving model in "
           ++ default (output_dir (args self)) output_dir_arg)]
  /\ forall dir, SavePretrained dir ∉ fst (save_model self output_dir_arg).
Proof.
  intros Hm. unfold save_model. rewrite Hm. simpl.
  repeat split. intros dir Hin.
  apply list_elem_of_singleton in Hin. discriminate.
Qed.

Lemma save_model_rejects_foreign_model_witness :
  snd (save_model Scenario.with_foreign_model None)
  = Py.Raise
      (Py.ValueError "Trainer.model appears to not be a PreTrainedModel")
  /\ fst (save_model Scenario.with_foreign_model None)
     = [LoggerInfo "Saving model in out"].
Proof.
  destruct (save_model_rejects_foreign_model Scenario.with_foreign_model None
              eq_refl) as [Hraise [Hlog _]].
  split; [exact Hraise | exact Hlog].
Defined.

Lemma get_eval_tfdataset_given (self : TFTrainer)
    (dataset : TF.Dataset (TF.value * TF.value)) :
  get_eval_tfdataset self (Some dataset) = get_test_tfdataset self dataset.
Proof.
  unfold get_eval_tfdataset, get_test_tfdataset.
  destruct (eval_dataset self); reflexivity.
Qed.

(** X18: [evaluate] on a dataset returns the metrics [predict] computes on
    it, whatever its [prediction_loss_only] argument, and writes them to the
    log together with the key "epoch"; the mapping it returns does not get
    that key. *)
Theorem evaluate_returns_predict_metrics (self : TFTrainer)
    (dataset : TF.Dataset (TF.value * TF.value)) (out : PredictionOutput)
    (arg : option bool) :
  predict self dataset = Py.Ok out ->
  evaluate self (Some dataset) arg
  = Py.Ok (metrics out,
           _log self (<["epoch"%string := epoch_logging self]> (metrics out)))
  /\ metrics out !! "epoch"%string = None.
Proof.
  unfold predict, evaluate. rewrite get_eval_tfdataset_given. intros H.
  destruct (get_test_tfdataset self dataset) as [test_ds | e |];
    simpl in H; try discriminate.
  simpl. rewrite H. simpl. split; [reflexivity |].
  destruct (metrics out !! "epoch"%string) as [v |] eqn:Hv; [| reflexivity].
  assert (Hp : String.prefix "eval_" "epoch" = true).
  { destruct (prediction_loop_returned _ _ _ _ H)
      as [loc [loss [_ [_ [Hren _]]]]].
    destruct (String.prefix "eval_" "epoch") eqn:Hp; [reflexivity |].
    exfalso.
    assert (Hnone : metrics out !! "epoch"%string = None).
    { match type of Hren with
      | rename_keys _ ?m0 = _ =>
          destruct (m0 !! "epoch"%string) as [w |] eqn:Hw
      end.
      - destruct (rename_keys_moves _ _ _ "epoch"%string w (keys_of_NoDup _)
                    Hren) as [_ Hgone]; [| exact Hp | exact Hw | exact Hgone].
        apply elem_of_keys_of. eauto.
      - apply (rename_keys_no_new_plain _ _ _ _ Hren Hp Hw). }
    congruence. }
  discriminate Hp.
Qed.

Lemma evaluate_returns_predict_metrics_witness :
  exists out,
    predict (Sample.evaluator false) (TF.Finite [Sample.example]) = Py.Ok out
    /\ evaluate (Sample.evaluator false) (Some (TF.Finite [Sample.example]))
         (Some true)
       = Py.Ok (metrics out,
                _log (Sample.evaluator false)
                  (<["epoch"%string := 0%Q]> (metrics out))).
Proof.
  destruct (predict (Sample.evaluator false) (TF.Finite [Sample.example]))
    as [out | e |] eqn:E; [| vm_compute in E; discriminate E ..].
  exists out. split; [reflexivity |].
  apply (evaluate_returns_predict_metrics (Sample.evaluator false)
           (TF.Finite [Sample.example]) out (Some true) E).
Defined.

(** X19: labels given as a mapping of named tensors are accepted by the
    forward pass, but outside loss-only mode on one replica the loop then
    asks the mapping for [numpy()] and raises [AttributeError]. *)
Theorem mapping_labels_break_prediction (self : TFTrainer)
    (features logits : TF.value) (items : list (string * TF.value))
    (rest : list (TF.value * TF.value)) (arg : option bool)
    (loss : Q) (rows : TF.ndarray) :
  loss_only_mode self arg = false ->
  n_gpu (args self) <= 1 ->
  _evaluate_steps self features (TF.Dict items) = Py.Ok (loss, logits) ->
  first_if_tuple logits = Py.Ok (TF.Tensor rows) ->
  _prediction_loop self ((features, TF.Dict items) :: rest) arg
  = Py.Raise Py.AttributeError.
Proof.
  intros Hmode Hone Hev Hlg. unfold _prediction_loop. rewrite Hmode.
  change (prediction_batches self false ((features, TF.Dict items) :: rest)
            no_locals)
    with (Py.bind (prediction_step self false no_locals
                     (features, TF.Dict items))
                  (fun loc => prediction_batches self false rest loc)).
  unfold prediction_step. rewrite Hev. simpl. rewrite Hlg. simpl.
  destruct (Z.gtb_spec (n_gpu (args self)) 1); [lia | reflexivity].
Qed.

Lemma mapping_labels_break_prediction_witness :
  _prediction_loop (Sample.evaluator false)
    [(TF.Tensor [[1%Q]], TF.Dict [("labels"%string, TF.Tensor [[0%Q]])])]
    None
  = Py.Raise Py.AttributeError.
Proof.
  apply (mapping_labels_break_prediction (Sample.evaluator false)
           (TF.Tensor [[1%Q]]) (TF.Tensor [[3%Q]])
           [("labels"%string, TF.Tensor [[0%Q]])] [] None (1 # 2)%Q [[3%Q]]).
  - reflexivity.
  - unfold n_gpu. simpl. lia.
  - reflexivity.
  - reflexivity.
Defined.

(** X20: with evaluation during training switched on and no eval dataset
    set, the training step whose global step is a multiple of [eval_steps]
    fails with the [ValueError] of [get_eval_tfdataset]; the optimizer update
    of that step has already been made. *)
Theorem evaluation_step_needs_eval_dataset (self : TFTrainer)
    (lr_scheduler : LearningRateSchedule) (optimizer : Optimizer)
    (epoch_iter step : Z) (training_loss : Q) :
  evaluate_during_training (args self) = true ->
  eval_dataset self = None ->
  train_steps self <> 0 ->
  Py.np_mod (iterations optimizer) (eval_steps (args self)) = 0 ->
  training_step_body self lr_scheduler optimizer epoch_iter step training_loss
  = Py.Raise (Py.ValueError "Trainer: evaluation requires an eval_dataset.").
Proof.
  intros Hon Hnone Hts Hmod. unfold training_step_body, Py.int_truediv.
  destruct (Z.eqb_spec (train_steps self) 0) as [| _]; [contradiction |].
  simpl.
  assert (Hev : forall s : TFTrainer,
             eval_dataset s = None ->
             evaluate s None None
             = Py.Raise
                 (Py.ValueError
                    "Trainer: evaluation requires an eval_dataset.")).
  { intros s Hs. unfold evaluate, get_eval_tfdataset. rewrite Hs.
    reflexivity. }
  destruct (debug (args self)) eqn:Hd;
    destruct (iterations optimizer =? 1) eqn:H1;
    simpl; rewrite ?Hd, ?H1; simpl; rewrite ?Hon, ?Hmod; simpl;
    rewrite Hev by exact Hnone; reflexivity.
Qed.

Lemma evaluation_step_needs_eval_dataset_witness :
  let a :=
    {| strategy := Sample.one_strategy 1; max_steps := 0;
       num_train_epochs := 1; train_batch_size := 1; eval_batch_size := 1;
       dataloader_drop_last := false; gradient_accumulation_steps := 1;
       max_grad_norm := 1%Q; learning_rate := (1 # 100)%Q;
       warmup_steps := 0; adam_epsilon := (1 # 1000)%Q; weight_decay := 0%Q;
       debug := false; evaluate_during_training := true; eval_steps := 2;
       logging_steps := 500; save_steps := 500; output_dir := "out"%string;
       logging_dir := "runs"%string |} in
  training_step_body (set_datasets (Sample.trainer a None None) None 4 4)
    Sample.flat_schedule {| iterations := 2; applied := [] |} 1 1 (1 # 2)%Q
  = Py.Raise (Py.ValueError "Trainer: evaluation requires an eval_dataset.").
Proof.
  intros a.
  apply (evaluation_step_needs_eval_dataset
           (set_datasets (Sample.trainer a None None) None 4 4)
           Sample.flat_schedule {| iterations := 2; applied := [] |} 1 1
           (1 # 2)%Q).
  - reflexivity.
  - reflexivity.
  - simpl. lia.
  - reflexivity.
Defined.

(** ** A whole run without a step budget *)

Lemma training_step_body_model (self self' : TFTrainer)
    (lr_scheduler : LearningRateSchedule) (optimizer : Optimizer)
    (epoch_iter step : Z) (training_loss : Q) (stop : bool) :
  training_step_body self lr_scheduler optimizer epoch_iter step training_loss
  = Py.Ok (self', stop) ->
  model self' = model self.
Proof.
  unfold training_step_body. intros H.
  destruct (Py.int_truediv (step + 1) (train_steps self)) as [fraction | e |];
    simpl in H; try discriminate.
  match type of H with
  | Py.bind ?r _ = _ => destruct r as [s1 | e |] eqn:E; simpl in H;
                        try discriminate
  end.
  injection H as <- _.
  assert (Hs1 : model s1 = model self).
  { match type of E with
    | (if ?c then _ else _) = _ => destruct c
    end.
    - destruct (evaluate _ None None) as [[m s2] | e |] eqn:Ev; simpl in E;
        try discriminate.
      injection E as <-. unfold evaluate in Ev. returned Ev.
      injection Ev as _ <-.
      repeat match goal with
             | |- context [if ?c then _ else _] => destruct c
             end; reflexivity.
    - injection E as <-.
      repeat match goal with
             | |- context [if ?c then _ else _] => destruct c
             end; reflexivity. }
  repeat match goal with
         | |- context [if ?c then _ else _] => destruct c
         end; simpl; exact Hs1.
Qed.

Lemma training_step_body_returns (self : TFTrainer)
    (lr_scheduler : LearningRateSchedule) (optimizer : Optimizer)
    (epoch_iter step : Z) (training_loss : Q) :
  evaluate_during_training (args self) = false ->
  train_steps self <> 0 ->
  exists self' stop,
    training_step_body self lr_scheduler optimizer epoch_iter step
      training_loss = Py.Ok (self', stop).
Proof.
  intros Hoff Hts. unfold training_step_body, Py.int_truediv.
  destruct (Z.eqb_spec (train_steps self) 0) as [| _]; [contradiction |].
  simpl.
  destruct (debug (args self)) eqn:Hd;
    destruct (iterations optimizer =? 1) eqn:H1;
    simpl; rewrite ?Hd, ?H1; simpl; rewrite ?Hoff; simpl; eauto.
Qed.

Lemma traverse_state_ext {A B St}
    (f g : nat -> A -> St -> Py.result (B * St)) (xs : list A) :
  (forall r x s, f r x s = g r x s) ->
  forall r s, Replicas.traverse_state f r xs s = Replicas.traverse_state g r xs s.
Proof.
  intros Hfg. induction xs as [| x xs IH]; intros r s; simpl.
  - reflexivity.
  - rewrite Hfg. destruct (g r x s) as [[y s1] | e |]; simpl; try reflexivity.
    rewrite IH. reflexivity.
Qed.

(** The forward and backward pass reads the model and the configuration of
    the trainer, nothing else. *)
Lemma accumulate_gradients_same_setup
    (tf_gradients : TF.value -> TF.value -> list string -> list (option Q))
    (s s' : TFTrainer) (features labels : TF.value)
    (acc : GradientAccumulator.t) :
  model s' = model s -> args s' = args s ->
  _accumulate_gradients tf_gradients s' features labels acc
  = _accumulate_gradients tf_gradients s features labels acc.
Proof.
  intros Hm Ha. unfold _accumulate_gradients, reduce_mean_with_fallback.
  rewrite Ha.
  rewrite (traverse_state_ext (_forward tf_gradients s')
             (_forward tf_gradients s)); [reflexivity |].
  intros r [f l] st. unfold _forward, _run_model. rewrite Hm, Ha. reflexivity.
Qed.

Lemma accumulates_same_setup
    (tf_gradients : TF.value -> TF.value -> list string -> list (option Q))
    (s s' : TFTrainer) (batch : TF.value * TF.value) :
  model s' = model s -> args s' = args s ->
  accumulates tf_gradients s batch -> accumulates tf_gradients s' batch.
Proof.
  intros Hm Ha [Hshards Hok]. split; [exact Hshards |].
  intros acc. rewrite (accumulate_gradients_same_setup _ _ _ _ _ _ Hm Ha).
  apply Hok.
Qed.

Lemma no_multiple_inside (x s target : Z) :
  0 < s -> target mod s = 0 -> target - s < x -> x < target -> x mod s <> 0.
Proof.
  intros Hs Ht Hlo Hhi Hx.
  apply Z.mod_divide in Ht; [| lia]. apply Z.mod_divide in Hx; [| lia].
  destruct Ht as [k Hk]. destruct Hx as [j Hj]. subst.
  assert (k - 1 < j) by (apply (Z.mul_lt_mono_pos_r s); lia).
  assert (j < k) by (apply (Z.mul_lt_mono_pos_r s); lia).
  lia.
Qed.

Lemma full_epoch
    (tf_gradients : TF.value -> TF.value -> list string -> list (option Q))
    (gen_self : TFTrainer) (lr_scheduler : LearningRateSchedule)
    (epoch_iter : Z) (ds : list (TF.value * TF.value)) :
  gradient_accumulation_steps (args gen_self) = 1 ->
  Forall (accumulates tf_gradients gen_self) ds ->
  forall (i step : Z) (acc : GradientAccumulator.t) (optimizer : Optimizer)
         (consumer : TFTrainer) (target : Z),
    evaluate_during_training (args consumer) = false ->
    0 < train_steps consumer ->
    target mod train_steps consumer = 0 ->
    ds <> [] ->
    iterations optimizer + Z.of_nat (length ds) = target ->
    target - train_steps consumer <= iterations optimizer ->
    exists consumer' optimizer',
      epoch_loop consumer lr_scheduler epoch_iter step
        (_training_steps_from tf_gradients gen_self i ds acc optimizer)
      = Py.Ok (consumer', optimizer')
      /\ iterations optimizer' = target
      /\ model consumer' = model consumer
      /\ args consumer' = args consumer
      /\ train_steps consumer' = train_steps consumer.
Proof.
  intros Hgas Hall. induction Hall as [| [features labels] ds [_ Hok] Hall IH];
    intros i step acc optimizer consumer target Hoff HS Htarget Hne Hlen Hlow;
    [congruence |].
  destruct (Hok acc) as [loss [acc1 Hacc]]. simpl in Hacc.
  simpl _training_steps_from. rewrite Hacc. unfold Py.int_mod.
  rewrite Hgas, Z.mod_1_r. simpl.
  destruct (training_step_body_returns
              (set_gradient_accumulator consumer
                 (GradientAccumulator.reset acc1))
              lr_scheduler
              (apply_gradients
                 (zip (clipped_gradients gen_self
                         (scaled_gradients gen_self acc1))
                      (trainable_variables (model gen_self))) optimizer)
              epoch_iter step loss Hoff ltac:(simpl; lia))
    as [s1 [stop Hbody]].
  rewrite Hbody. simpl.
  destruct (training_step_body_counters _ _ _ _ _ _ _ _ Hbody)
    as [_ [Ht [Ha Hstop]]].
  pose proof (training_step_body_model _ _ _ _ _ _ _ _ Hbody) as Hm.
  simpl in Ht, Ha, Hstop, Hm. simpl length in Hlen.
  destruct ds as [| b ds].
  - assert (Hend : iterations optimizer + 1 = target) by (simpl in Hlen; lia).
    rewrite Hend in Hstop. unfold Py.np_mod in Hstop.
    destruct (Z.eqb_spec (train_steps consumer) 0); [lia |].
    rewrite Htarget in Hstop. simpl in Hstop. subst stop.
    exists s1. eexists. split; [reflexivity |]. simpl.
    repeat split; assumption.
  - assert (Hnot : stop = false).
    { rewrite Hstop. apply Z.eqb_neq. unfold Py.np_mod.
      destruct (Z.eqb_spec (train_steps consumer) 0); [lia |].
      apply (no_multiple_inside _ _ target HS Htarget);
        simpl length in Hlen; lia. }
    rewrite Hnot.
    destruct (IH (i + 1) (step + 1) (GradientAccumulator.reset acc1)
                (apply_gradients
                   (zip (clipped_gradients gen_self
                           (scaled_gradients gen_self acc1))
                        (trainable_variables (model gen_self))) optimizer)
                s1 target)
      as [c' [o' [Hrun [Hit [Hm' [Ha' Ht']]]]]].
    + rewrite Ha. exact Hoff.
    + rewrite Ht. exact HS.
    + rewrite Ht. exact Htarget.
    + discriminate.
    + simpl iterations. simpl length in Hlen |- *. lia.
    + simpl iterations. rewrite Ht. simpl length in Hlen. lia.
    + exists c', o'. split; [exact Hrun |].
      repeat split; congruence.
Qed.

Lemma add_period (a s : Z) :
  0 < s -> a mod s = 0 -> (a + s) mod s = 0.
Proof.
  intros Hs Ha. replace (a + s) with (a + 1 * s) by lia.
  rewrite Z.mod_add by lia. exact Ha.
Qed.

Lemma epochs_of_full_length
    (tf_gradients : TF.value -> TF.value -> list string -> list (option Q))
    (lr_scheduler : LearningRateSchedule) (ds : list (TF.value * TF.value))
    (setup : TFTrainer) (epoch_iters : list Z) :
  gradient_accumulation_steps (args setup) = 1 ->
  evaluate_during_training (args setup) = false ->
  Forall (accumulates tf_gradients setup) ds ->
  ds <> [] ->
  forall (self : TFTrainer) (optimizer : Optimizer),
    model self = model setup -> args self = args setup ->
    train_steps self = Z.of_nat (length ds) ->
    iterations optimizer mod train_steps self = 0 ->
    exists self' optimizer',
      epochs_loop tf_gradients self lr_scheduler ds optimizer epoch_iters
      = Py.Ok (self', optimizer')
      /\ iterations optimizer'
         = iterations optimizer
           + Z.of_nat (length epoch_iters) * Z.of_nat (length ds).
Proof.
  intros Hgas Hoff Hall Hne.
  assert (Hpos : 0 < Z.of_nat (length ds)) by (destruct ds; [congruence | simpl; lia]).
  induction epoch_iters as [| epoch_iter epoch_iters IH];
    intros self optimizer Hm Ha Ht Hmod.
  - simpl. eexists. eexists. split; [reflexivity | lia].
  - destruct (full_epoch tf_gradients self lr_scheduler epoch_iter ds)
      with (i := 0) (step := 0) (acc := gradient_accumulator self)
           (optimizer := optimizer) (consumer := self)
           (target := iterations optimizer + Z.of_nat (length ds))
      as [s1 [o1 [Hrun [Hit [Hm1 [Ha1 Ht1]]]]]].
    + rewrite Ha. exact Hgas.
    + eapply Forall_impl; [exact Hall |]. intros b Hb.
      apply (accumulates_same_setup _ setup self b Hm Ha Hb).
    + rewrite Ha. exact Hoff.
    + lia.
    + rewrite <- Ht. apply add_period; [lia | exact Hmod].
    + exact Hne.
    + reflexivity.
    + lia.
    + destruct (IH s1 o1) as [s' [o' [Hrest Hit']]];
        [congruence | congruence | congruence | |].
      * rewrite Ht1, Hit, <- Ht. apply add_period; [lia | exact Hmod].
      * exists s', o'. split.
        -- simpl. unfold _training_steps. rewrite Hrun. simpl. exact Hrest.
        -- rewrite Hit', Hit. simpl length. lia.
Qed.

(** X21: a fresh run without a step budget, without gradient accumulation
    ([gradient_accumulation_steps = 1]), keeping the last partial batch and
    not evaluating on the way, returns after exactly
    [num_train_epochs * train_steps] optimizer updates, [train_steps] being
    the number of batches of an epoch: every batch of every epoch is
    applied once. *)
Theorem fresh_run_applies_every_batch
    (shuffle : Z -> list (TF.value * TF.value) -> list (TF.value * TF.value))
    (tf_gradients : TF.value -> TF.value -> list string -> list (option Q))
    (create_optimizer : Q -> Z -> Z -> Q -> Q -> Optimizer * LearningRateSchedule)
    (self self1 : TFTrainer) (ds : list (TF.value * TF.value)) :
  (forall n l, length (shuffle n l) = length l) ->
  max_steps (args self) <= 0 ->
  dataloader_drop_last (args self) = false ->
  gradient_accumulation_steps (args self) = 1 ->
  evaluate_during_training (args self) = false ->
  latest_checkpoint self = None ->
  0 <= num_train_epochs (args self) ->
  get_train_tfdataset shuffle self = Py.Ok (ds, self1) ->
  ds <> [] ->
  Forall (accumulates tf_gradients self1) ds ->
  iterations (fst (get_optimizers create_optimizer self1)) = 0 ->
  exists self' optimizer',
    train shuffle tf_gradients create_optimizer self
    = Py.Ok (self', optimizer')
    /\ train_steps self1 = Z.of_nat (length ds)
    /\ iterations optimizer'
       = num_train_epochs (args self) * train_steps self1.
Proof.
  intros Hshuffle Hbudget Hdrop Hgas Hoff Hckpt Hepochs Hget Hne Hall Hfresh.
  destruct (get_train_tfdataset_returns _ _ _ _ Hget)
    as [dataset [elems [steps [batches [_ [_ [Hsteps [Hbatch [Hds Hself1]]]]]]]]].
  assert (Hno : (max_steps (args self) >? 0) = false) by lia.
  rewrite Hno in Hsteps, Hself1.
  unfold TF.batch in Hbatch.
  destruct (Z.leb_spec (train_batch_size (args self)) 0) as [| Hbs];
    [discriminate |].
  injection Hbatch as <-.
  rewrite (ceiling_is_ceil_div _ _ Hbs) in Hsteps. injection Hsteps as <-.
  assert (Hlen : train_steps self1 = Z.of_nat (length ds)).
  { rewrite Hself1, Hds, length_map, batch_fuel_length by lia.
    rewrite Hdrop, Hshuffle, Z2Nat.id by lia. reflexivity. }
  assert (Hargs : args self1 = args self) by (rewrite Hself1; reflexivity).
  assert (Hck1 : latest_checkpoint self1 = None)
    by (rewrite Hself1; exact Hckpt).
  unfold train. rewrite Hget. simpl.
  change (get_optimizers create_optimizer
            (set_gradient_accumulator self1
               (GradientAccumulator.reset (gradient_accumulator self1))))
    with (get_optimizers create_optimizer self1).
  destruct (get_optimizers create_optimizer self1) as [optimizer lr].
  simpl in Hfresh. unfold restore. simpl latest_checkpoint. rewrite Hck1.
  simpl train_steps. simpl args. rewrite Hargs.
  unfold total_epochs. rewrite Hno.
  unfold start_epoch. rewrite Hfresh. simpl (0 >? 0). cbv iota.
  destruct (epochs_of_full_length tf_gradients lr ds self1
              (py_range 1 (num_train_epochs (args self) + 1)))
    with (self := set_gradient_accumulator self1
                    (GradientAccumulator.reset (gradient_accumulator self1)))
         (optimizer := optimizer)
    as [s' [o' [Hrun Hit]]];
    try reflexivity; try assumption.
  - rewrite Hargs. exact Hgas.
  - rewrite Hargs. exact Hoff.
  - simpl. rewrite Hfresh. apply Z.mod_0_l.
    rewrite Hlen. destruct ds; [congruence | simpl; lia].
  - exists s', o'. split; [exact Hrun |]. split; [exact Hlen |].
    rewrite Hit, Hfresh, Hlen. unfold py_range.
    rewrite length_map, length_seq. lia.
Qed.

Lemma fresh_run_applies_every_batch_witness :
  let examples := [Sample.example; Sample.example] in
  let self :=
    Sample.trainer (Sample.toy_args 1 0 1 1) (Some (TF.Finite examples))
      None in
  exists self' optimizer',
    train Sample.in_order (Sample.constant_gradient 1)
      Sample.default_optimizer self = Py.Ok (self', optimizer')
    /\ iterations optimizer' = 3 * 2.
Proof.
  intros examples self.
  destruct (fresh_run_applies_every_batch Sample.in_order
              (Sample.constant_gradient 1) Sample.default_optimizer self
              (set_datasets self (Some (TF.Finite examples)) 2 2)
              [Sample.distribute [Sample.example];
               Sample.distribute [Sample.example]])
    as [s' [o' [Hrun [_ Hit]]]].
  - intros n l. reflexivity.
  - simpl. lia.
  - reflexivity.
  - reflexivity.
  - reflexivity.
  - reflexivity.
  - simpl. lia.
  - reflexivity.
  - discriminate.
  - repeat constructor; intros acc; eexists; eexists; reflexivity.
  - reflexivity.
  - exists s', o'. split; [exact Hrun | exact Hit].
Defined.

(** * The forward pass, the resumed epoch, the metrics and the average *)





Lemma py_range_first (a b : Z) :
  a < b -> py_range a b = a :: py_range (a + 1) b.
Proof.
  intros H. unfold py_range.
  replace (Z.to_nat (b - a)) with (S (Z.to_nat (b - (a + 1)))) by lia.
  simpl. f_equal; [lia |].
  rewrite <- seq_shift, map_map. apply map_ext. intros k. lia.
Qed.

(** C4: [train] on a checkpoint whose optimizer counter is [I], with [S > 0]
    steps per epoch, puts [I] back into the optimizer and runs the epochs
    from [floor(I / S) + 1] on when [I] is not zero, from 1 on when it is:
    that is the first epoch index the loop takes, as long as it does not
    exceed the number of epochs.  For [I = 25] and [S = 10] training resumes
    at epoch 3. *)
Theorem train_resumes_at_epoch
    (shuffle : Z -> list (TF.value * TF.value) -> list (TF.value * TF.value))
    (tf_gradients : TF.value -> TF.value -> list string -> list (option Q))
    (create_optimizer : Q -> Z -> Z -> Q -> Q -> Optimizer * LearningRateSchedule)
    (self self1 : TFTrainer) (ds : list (TF.value * TF.value)) (I : Z) :
  get_train_tfdataset shuffle self = Py.Ok (ds, self1) ->
  latest_checkpoint self = Some I ->
  0 <= I ->
  0 < train_steps self1 ->
  let first := if I =? 0 then 1 else I / train_steps self1 + 1 in
  let last := total_epochs (args self) in
  train shuffle tf_gradients create_optimizer self
  = epochs_loop tf_gradients
      (set_gradient_accumulator self1
         (GradientAccumulator.reset (gradient_accumulator self1)))
      (snd (get_optimizers create_optimizer self1)) ds
      {| iterations := I;
         applied := applied (fst (get_optimizers create_optimizer self1)) |}
      (py_range first (last + 1))
  /\ (first <= last ->
      py_range first (last + 1) = first :: py_range (first + 1) (last + 1))
  /\ (last < first -> py_range first (last + 1) = []).
Proof.
  intros Hget Hckpt HI HS first last.
  destruct (get_train_tfdataset_returns _ _ _ _ Hget)
    as [dataset [elems [steps [batches [_ [_ [_ [_ [_ Hself1]]]]]]]]].
  assert (Hck1 : latest_checkpoint self1 = Some I)
    by (rewrite Hself1; exact Hckpt).
  assert (Hargs : args self1 = args self) by (rewrite Hself1; reflexivity).
  split; [| split].
  - unfold train. rewrite Hget. simpl.
    change (get_optimizers create_optimizer
              (set_gradient_accumulator self1
                 (GradientAccumulator.reset (gradient_accumulator self1))))
      with (get_optimizers create_optimizer self1).
    destruct (get_optimizers create_optimizer self1) as [optimizer lr].
    unfold restore. simpl latest_checkpoint. rewrite Hck1.
    simpl. rewrite Hargs. fold last. f_equal.
    unfold start_epoch, Py.np_floordiv. subst first.
    destruct (Z.eqb_spec I 0) as [-> | Hnz]; [reflexivity |].
    destruct (Z.gtb_spec I 0); [| lia].
    destruct (Z.eqb_spec (train_steps self1) 0); [lia | reflexivity].
  - intros Hle. apply py_range_first. lia.
  - intros Hlt. apply py_range_empty. lia.
Qed.

Lemma train_resumes_at_epoch_witness :
  let examples := repeat Sample.example 10 in
  let self :=
    Scenario.resumed (Sample.toy_args 1 0 1 1) (Some (TF.Finite examples))
      25 in
  let self1 := set_datasets self (Some (TF.Finite examples)) 10 10 in
  train Sample.in_order (Sample.constant_gradient 1) Sample.default_optimizer
    self
  = epochs_loop (Sample.constant_gradient 1)
      (set_gradient_accumulator self1
         (GradientAccumulator.reset (gradient_accumulator self1)))
      Sample.flat_schedule (repeat (Sample.distribute [Sample.example]) 10)
      {| iterations := 25; applied := [] |}
      (3 :: py_range 4 4)
  /\ exists self' optimizer',
       train Sample.in_order (Sample.constant_gradient 1)
         Sample.default_optimizer self = Py.Ok (self', optimizer')
       /\ iterations optimizer' = 30
       /\ (epoch_logging self' == 5 # 2)%Q.
Proof.
  intros examples self self1.
  destruct (train_resumes_at_epoch Sample.in_order
              (Sample.constant_gradient 1) Sample.default_optimizer self self1
              (repeat (Sample.distribute [Sample.example]) 10) 25)
    as [Hrun _].
  - reflexivity.
  - reflexivity.
  - lia.
  - simpl. lia.
  - split.
    + rewrite Hrun. reflexivity.
    + destruct (train Sample.in_order (Sample.constant_gradient 1)
                  Sample.default_optimizer self)
        as [[s o] | e |] eqn:E; [| vm_compute in E; discriminate E ..].
      exists s, o. split; [reflexivity |].
      vm_compute in E. injection E as <- <-. split; reflexivity.
Defined.

(** An entry under a prefixed key is left alone by the loop unless the key
    is the new name of a key the loop renames. *)
Lemma rename_keys_frame_prefixed (keys : list string) (m m' : gmap string Q)
    (key : string) :
  rename_keys keys m = Py.Ok m' ->
  String.prefix "eval_" key = true ->
  (forall k, k ∈ keys -> String.prefix "eval_" k = false ->
             ("eval_" ++ k)%string <> key) ->
  m' !! key = m !! key.
Proof.
  revert m. induction keys as [| k keys IH]; intros m H Hp Hfree; simpl in H.
  - injection H as <-. reflexivity.
  - destruct (rename_key m k) as [m1 | e |] eqn:H1; simpl in H;
      try discriminate.
    rewrite (IH m1 H Hp).
    + destruct (String.prefix "eval_" k) eqn:Hk.
      * unfold rename_key in H1. rewrite Hk in H1. congruence.
      * apply (rename_key_frame m m1 k key H1).
        -- intros ->. congruence.
        -- intros Heq. apply (Hfree k); [left | exact Hk | congruence].
    + intros k' Hin. apply Hfree. right. exact Hin.
Qed.

(** C5, as the code has it: when the metrics callback [f] is consulted, on
    the gathered predictions and label ids, the returned mapping has the key
    "eval_loss"; a key of [f]'s mapping without the prefix "eval_" is gone
    and its value sits under the prefixed key; a key of [f]'s mapping with
    the prefix is still there, and with its value unless it is "eval_loss" or
    the prefixed name of another key of [f]'s mapping. *)
Theorem metrics_of_callback_are_renamed (self : TFTrainer)
    (dataset : list (TF.value * TF.value)) (arg : option bool)
    (loc : prediction_locals) (f : EvalPrediction -> gmap string Q)
    (preds labels : TF.ndarray) :
  dataset <> [] ->
  prediction_batches self (loss_only_mode self arg) dataset no_locals
  = Py.Ok loc ->
  compute_metrics self = Some f ->
  pl_preds loc = Some preds ->
  pl_label_ids loc = Some labels ->
  let user := f {| ep_predictions := preds; ep_label_ids := labels |} in
  exists out,
    _prediction_loop self dataset arg = Py.Ok out
    /\ predictions out = Some preds
    /\ label_ids out = Some labels
    /\ is_Some (metrics out !! "eval_loss"%string)
    /\ forall key v,
         user !! key = Some v ->
         (String.prefix "eval_" key = false ->
          metrics out !! key = None
          /\ metrics out !! ("eval_" ++ key)%string = Some v)
         /\ (String.prefix "eval_" key = true ->
             is_Some (metrics out !! key)
             /\ (key <> "eval_loss"%string ->
                 (forall k, String.prefix "eval_" k = false ->
                            is_Some (user !! k) ->
                            ("eval_" ++ k)%string <> key) ->
                 metrics out !! key = Some v)).
Proof.
  intros Hne Hloc Hf Hp Hl user.
  destruct (prediction_loop_returns self dataset arg loc Hloc Hne)
    as [loss [renamed [Hloss [Hren Hout]]]].
  assert (Huser : callback_metrics self (pl_preds loc) (pl_label_ids loc)
                  = user).
  { unfold callback_metrics. rewrite Hf, Hp, Hl. reflexivity. }
  rewrite Huser in Hren.
  eexists. split; [exact Hout |]. simpl.
  split; [exact Hp |]. split; [exact Hl |]. split.
  - apply (rename_keys_keeps_prefixed _ _ _ _ Hren); [reflexivity |].
    rewrite lookup_insert_eq. eauto.
  - intros key v Hkey. split.
    + intros Hplain.
      assert (Hd : "eval_loss"%string <> key)
        by (intros <-; discriminate Hplain).
      assert (Hv : <["eval_loss"%string := loss]> user !! key = Some v)
        by (rewrite lookup_insert_ne by exact Hd; exact Hkey).
      destruct (rename_keys_moves _ _ _ key v (keys_of_NoDup _) Hren)
        as [Hnew Hold]; [| exact Hplain | exact Hv | split; assumption].
      apply elem_of_keys_of. eauto.
    + intros Hpre. split.
      * apply (rename_keys_keeps_prefixed _ _ _ _ Hren Hpre).
        destruct (decide ("eval_loss"%string = key)) as [<- | Hd].
        -- rewrite lookup_insert_eq. eauto.
        -- rewrite lookup_insert_ne by exact Hd. eauto.
      * intros Hd Hfree.
        rewrite (rename_keys_frame_prefixed _ _ _ key Hren Hpre).
        -- rewrite lookup_insert_ne by congruence. exact Hkey.
        -- intros k Hin Hk. apply Hfree; [exact Hk |].
           apply elem_of_keys_of in Hin.
           rewrite lookup_insert_ne in Hin; [exact Hin |].
           intros <-. discriminate Hk.
Qed.


Lemma counting_metrics :
  let user :=
    Fixture.counting {| ep_predictions := [[3%Q]; [3%Q]];
                        ep_label_ids := [[0%Q]; [1%Q]] |} in
  user !! "accuracy"%string = Some 2%Q
  /\ user !! "eval_f1"%string = Some 2%Q
  /\ user !! "f1"%string = None.
Proof. vm_compute. repeat split. Qed.

Lemma metrics_of_callback_are_renamed_witness :
  let batch1 := (TF.Tensor [[1%Q]], TF.Tensor [[0%Q]]) in
  let batch2 := (TF.Tensor [[2%Q]], TF.Tensor [[1%Q]]) in
  exists out,
    _prediction_loop (Fixture.evaluator_with Fixture.counting)
      [batch1; batch2] None = Py.Ok out
    /\ predictions out = Some [[3%Q]; [3%Q]]
    /\ metrics out !! "accuracy"%string = None
    /\ metrics out !! "eval_accuracy"%string = Some 2%Q
    /\ metrics out !! "eval_f1"%string = Some 2%Q.
Proof.
  intros batch1 batch2.
  destruct counting_metrics as [Hacc [Hf1 Hnone]].
  destruct (metrics_of_callback_are_renamed
              (Fixture.evaluator_with Fixture.counting) [batch1; batch2] None
              {| pl_loss := Some (1 # 2)%Q;
                 pl_preds := Some [[3%Q]; [3%Q]];
                 pl_label_ids := Some [[0%Q]; [1%Q]] |}
              Fixture.counting [[3%Q]; [3%Q]] [[0%Q]; [1%Q]])
    as [out [Hout [Hp [_ [_ Hkeys]]]]].
  - discriminate.
  - vm_compute. reflexivity.
  - reflexivity.
  - reflexivity.
  - reflexivity.
  - exists out. split; [exact Hout |]. split; [exact Hp |].
    destruct (Hkeys "accuracy"%string 2%Q Hacc) as [Hplain _].
    destruct (Hplain eq_refl) as [Hgone Hmoved].
    destruct (Hkeys "eval_f1"%string 2%Q Hf1) as [_ Hpre].
    destruct (Hpre eq_refl) as [_ Hkept].
    split; [exact Hgone |]. split; [exact Hmoved |].
    apply Hkept; [discriminate |].
    intros k Hk [w Hw] Heq.
    change "eval_f1"%string with ("eval_" ++ "f1")%string in Heq.
    apply eval_app_inj in Heq. subst k.
    rewrite Hnone in Hw. discriminate Hw.
Defined.

(** C5, as it is worded, fails on a collision: the callback reports 1 under
    "eval_x" and 2 under "x"; the returned mapping has 2 under "eval_x". *)
Lemma prefixed_key_overwritten_counterexample :
  let batch := (TF.Tensor [[1%Q]], TF.Tensor [[0%Q]]) in
  let given :=
    Fixture.colliding {| ep_predictions := [[3%Q]];
                         ep_label_ids := [[0%Q]] |} in
  exists out,
    _prediction_loop (Fixture.evaluator_with Fixture.colliding) [batch] None
    = Py.Ok out
    /\ given !! "eval_x"%string = Some 1%Q
    /\ metrics out !! "eval_x"%string = Some 2%Q
    /\ metrics out !! "eval_x"%string <> given !! "eval_x"%string.
Proof.
  intros batch given.
  destruct (_prediction_loop (Fixture.evaluator_with Fixture.colliding)
              [batch] None) as [out | e |] eqn:E;
    [| vm_compute in E; discriminate E ..].
  exists out. split; [reflexivity |].
  vm_compute in E. injection E as <-.
  vm_compute. repeat split. discriminate.
Qed.



Section SameGradientEverywhere.

Variable tf_gradients :
  TF.value -> TF.value -> list string -> list (option Q).
Variable self : TFTrainer.
Variable g : list Q.

Hypothesis same_gradient :
  forall features labels,
    densify (tf_gradients features labels (trainable_variables (model self)))
            (trainable_variables (model self)) = g.



End SameGradientEverywhere.


